(** * Port forwarding session (code/network/multi_portfwd.cpp)

    A shallow embedding of the PCP port-forwarding glue of the network
    layer: the three public operations [multi_port_forward_init],
    [multi_port_forward_do] and [multi_port_forward_close], the address
    helper [PF_get_addr] and the logging bridge [PF_log_init] /
    [PF_logger_fn].

    The module keeps four file-level statics and talks to three outside
    parties: libpcp (the protocol engine), the C library (resolver, clock
    conversion, heap) and the multiplayer log.  The outside parties are
    kept abstract: they are an arbitrary state machine over a world type
    [W], given by the class [Ext.Collaborators].  Every call that leaves
    the module is recorded, with its arguments and its answer, in the list
    of events a run produces.

    Conventions of the model:
    - [int] values are integers with the 32-bit wrap-around written out
      where the code adds ([CInt.add]);
    - a pointer to an engine object is an [option]; [None] is [nullptr];
    - a call into the engine is one step: what the engine writes to the log
      through [PF_logger_fn] while it runs is not part of the caller's
      events, the callback is an entry point of its own;
    - the locals [gateway_addr] and [local_addr] start out
      [Indeterminate], as declared;
    - [localtime] may return the null pointer; [strftime] reading through
      it brings the process down, after which nothing more runs
      ([alive] of the machine). *)

From Stdlib Require Import ZArith List String Ascii Bool Lia.
From Stdlib Require Import DecimalString.
Import ListNotations.

Local Open Scope string_scope.
Local Open Scope list_scope.
Local Open Scope Z_scope.

(** String concatenation, kept apart from the list one. *)
Local Infix "+++" := String.append (right associativity, at level 60).

(* ------------------------------------------------------------------ *)
(** ** Machine integers *)

Module CInt.

(** [int] is 32 bits wide; arithmetic is written with its wrap-around. *)
Definition INT_MIN : Z := -2147483648.
Definition INT_MAX : Z := 2147483647.

Definition wrap (z : Z) : Z := (z + 2147483648) mod 4294967296 - 2147483648.

(** [a + b] on [int]. *)
Definition add (a b : Z) : Z := wrap (a + b).

(** The mathematical value [z] is a value of [int]. *)
Definition representable (z : Z) : bool := (INT_MIN <=? z) && (z <=? INT_MAX).

(** Conversion to [uint16_t] (parameter passing in [PF_get_addr]). *)
Definition to_uint16 (z : Z) : Z := z mod 65536.

End CInt.

(* ------------------------------------------------------------------ *)
(** ** Text helpers: what [std::to_string], [%u] and [strftime] print *)

Module Text.

(** Decimal rendering of a non-negative number ([std::to_string] on a
    [uint16_t], [%u] in the printf family). *)
Definition dec (z : Z) : string := NilZero.string_of_uint (N.to_uint (Z.to_N z)).

(** A numeric [strftime] field of width two, zero padded. *)
Definition pad2 (z : Z) : string :=
  if z <? 0 then "-" +++ dec (- z)
  else if z <? 10 then "0" +++ dec z
  else dec z.

Definition is_digit (c : ascii) : bool :=
  let n := nat_of_ascii c in (48 <=? n)%nat && (n <=? 57)%nat.

(** The shape [MM/DD HH:MM:SS]: fourteen characters, digits around the
    separators. *)
Definition is_MMDD_HHMMSS (s : string) : bool :=
  match list_ascii_of_string s with
  | [m1; m2; s1; d1; d2; s2; h1; h2; s3; n1; n2; s4; c1; c2] =>
      is_digit m1 && is_digit m2 && Ascii.eqb s1 "/" &&
      is_digit d1 && is_digit d2 && Ascii.eqb s2 " " &&
      is_digit h1 && is_digit h2 && Ascii.eqb s3 ":" &&
      is_digit n1 && is_digit n2 && Ascii.eqb s4 ":" &&
      is_digit c1 && is_digit c2
  | _ => false
  end.

Definition two_digits (s : string) : bool :=
  match s with
  | String a (String b EmptyString) => Text.is_digit a && Text.is_digit b
  | _ => false
  end.

End Text.

(* ------------------------------------------------------------------ *)
(** ** Data exchanged with the C library and libpcp *)

(** Address families as far as [PF_get_addr] tells them apart. *)
Inductive family := AF_UNSPEC | AF_INET | AF_INET6 | AF_other (n : Z).

Inductive socktype := SOCK_DGRAM | SOCK_other (n : Z).

(** [struct addrinfo] used as hints: the fields the module sets after the
  [memset]; [ai_flags] is kept as the two bits the module can set. *)
Record addrinfo_hints := {
hint_family : family;
hint_socktype : socktype;
hint_AI_V4MAPPED : bool;
hint_AI_PASSIVE : bool
}.

(** One node of the list [getaddrinfo] returns: the family tag and the
  bytes [ai_addr] points to. *)
Record addrinfo := {
ai_family : family;
ai_addr : list Byte.byte
}.

Definition sizeof_sockaddr_in : nat := 16.
Definition sizeof_sockaddr_in6 : nat := 28.

(** A [struct sockaddr_storage] local of [multi_port_forward_init].  It is
  declared without an initialiser, so it starts out indeterminate;
  [Filled bs] says its leading bytes are [bs] (what a [memcpy] wrote). *)
Inductive sockaddr_storage :=
| Indeterminate
| Filled (bs : list Byte.byte).

(** Pointers to the engine's objects; [None] is [nullptr]. *)
Definition pcp_ctx_ptr := option N.
Definition pcp_flow_ptr := option N.

(** [pcp_fstate_e] of libpcp; the module inspects the last two only. *)
Inductive pcp_fstate_e :=
| pcp_state_processing
| pcp_state_partial_result
| pcp_state_short_lifetime_error
| pcp_state_succeeded
| pcp_state_failed.

(** [pcp_loglvl_e] of libpcp; [PF_log_init] selects [PCP_LOGLVL_NONE] or
    [PCP_LOGLVL_INFO]. *)
Inductive pcp_loglvl_e :=
| PCP_LOGLVL_NONE
| PCP_LOGLVL_ERR
| PCP_LOGLVL_WARN
| PCP_LOGLVL_INFO
| PCP_LOGLVL_PERR
| PCP_LOGLVL_DEBUG.

(** Arguments of [pcp_init]. *)
Inductive autodiscovery := ENABLE_AUTODISCOVERY | DISABLE_AUTODISCOVERY.

Inductive ipproto := IPPROTO_UDP.

(** The fields of [pcp_flow_info_t] the module reads.  Addresses are
  128-bit [in6_addr] values, ports are in network byte order. *)
Record pcp_flow_info_t := {
int_ip : N;
ext_ip : N;
int_port : Z;
ext_port : Z;
recv_lifetime_end : Z
}.

(** [struct tm], the fields the format string reads. *)
Record tm := {
tm_sec : Z;
tm_min : Z;
tm_hour : Z;
tm_mday : Z;
tm_mon : Z
}.

(** What the C library promises about a broken-down time. *)
Definition tm_wf (t : tm) : Prop :=
0 <= tm_sec t <= 60 /\ 0 <= tm_min t <= 59 /\ 0 <= tm_hour t <= 23 /\
1 <= tm_mday t <= 31 /\ 0 <= tm_mon t <= 11.

Definition PCP_SERVER_PORT : Z := 5351.
Definition PCP_MAX_SUPPORTED_VERSION : Z := 2.

(** [static const uint32_t PF_lifetime = 7200;] *)
Definition PF_lifetime : Z := 7200.

(* ------------------------------------------------------------------ *)
(** ** [strftime] for the conversions the module uses *)

Module Strftime.

Definition conv (c : ascii) (t : tm) : string :=
  if Ascii.eqb c "m" then Text.pad2 (tm_mon t + 1)
  else if Ascii.eqb c "d" then Text.pad2 (tm_mday t)
  else if Ascii.eqb c "H" then Text.pad2 (tm_hour t)
  else if Ascii.eqb c "M" then Text.pad2 (tm_min t)
  else if Ascii.eqb c "S" then Text.pad2 (tm_sec t)
  else if Ascii.eqb c "%" then "%"
  else "".

Fixpoint expand (fmt : string) (t : tm) : string :=
  match fmt with
  | EmptyString => EmptyString
  | String c rest =>
      if Ascii.eqb c "%" then
        match rest with
        | EmptyString => EmptyString
        | String d rest' => conv d t +++ expand rest' t
        end
      else String c (expand rest t)
  end.

(** [strftime(buf, maxsize, fmt, t)]: the text when it fits together
    with its terminating zero, [None] (return value 0, array contents
    unspecified) otherwise. *)
Definition strftime (maxsize : nat) (fmt : string) (t : tm) : option string :=
  let s := expand fmt t in
  if (String.length s + 1 <=? maxsize)%nat then Some s else None.

End Strftime.

(* ------------------------------------------------------------------ *)
(** ** Events: every call that leaves the module *)

Inductive Event :=
| EvTimer (now : Z)
| EvGetAddrInfo (host : option string) (service : string)
              (hints : addrinfo_hints) (rval : Z) (res : list addrinfo)
| EvFreeAddrInfo
| EvLogLevel (lvl : pcp_loglvl_e)
| EvSetLoggerFn
| EvPcpInit (mode : autodiscovery) (ret : pcp_ctx_ptr)
| EvAddServer (ctx : pcp_ctx_ptr) (server : sockaddr_storage) (version : Z)
| EvNewFlow (ctx : pcp_ctx_ptr) (src : sockaddr_storage) (proto : ipproto)
          (lifetime : Z) (ret : pcp_flow_ptr)
| EvPulse (ctx : pcp_ctx_ptr) (wait_ms : Z)
| EvEvalFlowState (flow : pcp_flow_ptr) (ret : Z) (state : pcp_fstate_e)
| EvFlowGetInfo (flow : pcp_flow_ptr) (ret : option (list pcp_flow_info_t))
| EvFree
| EvTerminate (ctx : pcp_ctx_ptr) (close_flows : Z)
| EvLog (line : string).

(* ------------------------------------------------------------------ *)
(** ** The collaborators *)

Module Ext.

(** The outside world as a state machine over [W].  Each field is one
    external function: it gets the arguments the module passes and the
    current world, and gives the answer and the next world.
    - [pcp_flow_get_info] answers [None] for a null array with a zero
      count and [Some l] for an array holding exactly [info_count] =
      [length l] entries.
    - [pcp_eval_flow_state] answers its [int] result and the state it
      stores through the out-parameter.
    - [localtime] answers [None] for the null pointer it returns when it
      cannot convert the time.
    - [stale_time_str] is whatever the uninitialised [time_str] array
      holds when [strftime] does not write it. *)
Class Collaborators (W : Type) := {
  timer_get_milliseconds : W -> Z * W;
  getaddrinfo : option string -> string -> addrinfo_hints -> W ->
                (Z * list addrinfo) * W;
  gai_strerror : Z -> string;
  set_pcp_log_level : pcp_loglvl_e -> W -> W;
  pcp_set_loggerfn : W -> W;
  pcp_init : autodiscovery -> W -> pcp_ctx_ptr * W;
  pcp_add_server : pcp_ctx_ptr -> sockaddr_storage -> Z -> W -> W;
  pcp_new_flow : pcp_ctx_ptr -> sockaddr_storage -> ipproto -> Z -> W ->
                 pcp_flow_ptr * W;
  pcp_pulse : pcp_ctx_ptr -> W -> Z * W;
  pcp_eval_flow_state : pcp_flow_ptr -> W -> (Z * pcp_fstate_e) * W;
  pcp_flow_get_info : pcp_flow_ptr -> W -> option (list pcp_flow_info_t) * W;
  pcp_terminate : pcp_ctx_ptr -> Z -> W -> W;
  inet_ntop_AF_INET6 : N -> string;
  ntohs : Z -> Z;
  localtime : Z -> option tm;
  stale_time_str : string
}.

End Ext.

(* ------------------------------------------------------------------ *)
(** ** Module state *)

(** The four statics of the file. *)
Record PF_statics := {
PF_initted : bool;
PF_pcp_flow : pcp_flow_ptr;
PF_pcp_ctx : pcp_ctx_ptr;
PF_wait_timestamp : Z
}.

(** Their initialisers. *)
Definition PF_statics_init : PF_statics :=
{| PF_initted := false; PF_pcp_flow := None; PF_pcp_ctx := None;
   PF_wait_timestamp := 0 |}.

(** Globals of other modules that are only read here, and the build
  flavour ([NDEBUG] defined or not). *)
Record Config := {
Cmdline_gateway_ip : option string;
Psnet_default_port : Z;
NDEBUG : bool
}.

(** The process: configuration, statics, the outside world, and whether
    it is still running ([alive] goes false at a crash). *)
Record Machine (W : Type) := {
  cfg : Config;
  pf : PF_statics;
  world : W;
  alive : bool
}.
Arguments cfg {W} _.
Arguments pf {W} _.
Arguments world {W} _.
Arguments alive {W} _.

(** Updates of single statics. *)
Definition with_initted (b : bool) (s : PF_statics) : PF_statics :=
{| PF_initted := b; PF_pcp_flow := PF_pcp_flow s; PF_pcp_ctx := PF_pcp_ctx s;
   PF_wait_timestamp := PF_wait_timestamp s |}.
Definition with_flow (f : pcp_flow_ptr) (s : PF_statics) : PF_statics :=
{| PF_initted := PF_initted s; PF_pcp_flow := f; PF_pcp_ctx := PF_pcp_ctx s;
   PF_wait_timestamp := PF_wait_timestamp s |}.
Definition with_ctx (c : pcp_ctx_ptr) (s : PF_statics) : PF_statics :=
{| PF_initted := PF_initted s; PF_pcp_flow := PF_pcp_flow s; PF_pcp_ctx := c;
   PF_wait_timestamp := PF_wait_timestamp s |}.
Definition with_wait_timestamp (t : Z) (s : PF_statics) : PF_statics :=
{| PF_initted := PF_initted s; PF_pcp_flow := PF_pcp_flow s;
   PF_pcp_ctx := PF_pcp_ctx s; PF_wait_timestamp := t |}.

(* ------------------------------------------------------------------ *)
(** ** A state-and-output monad for the module's code *)

(** What running a piece of code gives: its value, the machine it leaves
  and the events it produced, oldest first. *)
Record Outcome (W A : Type) := {
value : A;
after : Machine W;
events : list Event
}.
Arguments value {W A} _.
Arguments after {W A} _.
Arguments events {W A} _.

Definition M (W A : Type) : Type := Machine W -> Outcome W A.

Definition ret {W A} (a : A) : M W A :=
fun m => {| value := a; after := m; events := [] |}.

Definition bind {W A B} (c : M W A) (k : A -> M W B) : M W B :=
fun m =>
  match c m with
  | {| value := a; after := m1; events := e1 |} =>
      match k a m1 with
      | {| value := b; after := m2; events := e2 |} =>
          {| value := b; after := m2; events := e1 ++ e2 |}
      end
  end.

Declare Scope pf_scope.
Delimit Scope pf_scope with pf.
Notation "x <- c ;; k" := (bind c (fun x => k))
(at level 61, c at next level, right associativity) : pf_scope.
Notation "c ;; k" := (bind c (fun _ => k))
(at level 61, right associativity) : pf_scope.
Local Open Scope pf_scope.

(** Reading and writing the statics, reading the configuration. *)
Definition get_statics {W} : M W PF_statics :=
fun m => {| value := pf m; after := m; events := [] |}.

Definition modify_statics {W} (f : PF_statics -> PF_statics) : M W unit :=
fun m => {| value := tt;
            after := {| cfg := cfg m; pf := f (pf m); world := world m;
                        alive := alive m |};
            events := [] |}.

Definition get_config {W} : M W Config :=
fun m => {| value := cfg m; after := m; events := [] |}.

(** A call with an answer: ask the world, record the event. *)
Definition ask {W A} (f : W -> A * W) (ev : A -> Event) : M W A :=
fun m =>
  let r := f (world m) in
  {| value := fst r;
     after := {| cfg := cfg m; pf := pf m; world := snd r; alive := alive m |};
     events := [ev (fst r)] |}.

(** A call without an answer. *)
Definition tell {W} (f : W -> W) (ev : Event) : M W unit :=
fun m =>
  {| value := tt;
     after := {| cfg := cfg m; pf := pf m; world := f (world m);
                 alive := alive m |};
     events := [ev] |}.

(** The machine after a crash. *)
Definition kill {W} (m : Machine W) : Machine W :=
  {| cfg := cfg m; pf := pf m; world := world m; alive := false |}.

(** A fatal fault (here: a read through a null pointer). *)
Definition crash {W} : M W unit :=
  fun m => {| value := tt; after := kill m; events := [] |}.

(* ------------------------------------------------------------------ *)
(** ** The code *)

Section Code.

Context {W : Type} {C : Ext.Collaborators W}.

(** *** The external functions as actions *)

Definition timer_get_milliseconds : M W Z :=
  ask Ext.timer_get_milliseconds EvTimer.

Definition getaddrinfo (host : option string) (service : string)
           (hints : addrinfo_hints) : M W (Z * list addrinfo) :=
  ask (Ext.getaddrinfo host service hints)
      (fun r => EvGetAddrInfo host service hints (fst r) (snd r)).

Definition freeaddrinfo : M W unit := tell (fun w => w) EvFreeAddrInfo.

Definition set_pcp_log_level (lvl : pcp_loglvl_e) : M W unit :=
  tell (Ext.set_pcp_log_level lvl) (EvLogLevel lvl).

Definition pcp_set_loggerfn : M W unit :=
  tell Ext.pcp_set_loggerfn EvSetLoggerFn.

Definition pcp_init (mode : autodiscovery) : M W pcp_ctx_ptr :=
  ask (Ext.pcp_init mode) (EvPcpInit mode).

Definition pcp_add_server (ctx : pcp_ctx_ptr) (server : sockaddr_storage)
           (version : Z) : M W unit :=
  tell (Ext.pcp_add_server ctx server version) (EvAddServer ctx server version).

Definition pcp_new_flow (ctx : pcp_ctx_ptr) (src : sockaddr_storage)
           (proto : ipproto) (lifetime : Z) : M W pcp_flow_ptr :=
  ask (Ext.pcp_new_flow ctx src proto lifetime)
      (EvNewFlow ctx src proto lifetime).

Definition pcp_pulse (ctx : pcp_ctx_ptr) : M W Z :=
  ask (Ext.pcp_pulse ctx) (EvPulse ctx).

Definition pcp_eval_flow_state (flow : pcp_flow_ptr) : M W (Z * pcp_fstate_e) :=
  ask (Ext.pcp_eval_flow_state flow)
      (fun r => EvEvalFlowState flow (fst r) (snd r)).

Definition pcp_flow_get_info (flow : pcp_flow_ptr)
  : M W (option (list pcp_flow_info_t)) :=
  ask (Ext.pcp_flow_get_info flow) (EvFlowGetInfo flow).

Definition pcp_terminate (ctx : pcp_ctx_ptr) (close_flows : Z) : M W unit :=
  tell (Ext.pcp_terminate ctx close_flows) (EvTerminate ctx close_flows).

Definition free : M W unit := tell (fun w => w) EvFree.

(** [ml_string] and [ml_printf] hand one finished line to the log. *)
Definition ml_string (line : string) : M W unit := tell (fun w => w) (EvLog line).
Definition ml_printf (line : string) : M W unit := tell (fun w => w) (EvLog line).

(** *** [PF_get_addr] *)

Definition is_inet (f : family) : bool :=
  match f with AF_INET => true | _ => false end.
Definition is_inet6 (f : family) : bool :=
  match f with AF_INET6 => true | _ => false end.

(** The [for] loop over the result list: the first node of family
    [AF_INET] or [AF_INET6] is copied into [addr] and ends the loop. *)
Fixpoint PF_get_addr_scan (srv : list addrinfo) (success : bool)
         (addr : sockaddr_storage) : bool * sockaddr_storage :=
  match srv with
  | [] => (success, addr)
  | s :: next =>
      if is_inet (ai_family s) || is_inet6 (ai_family s) then
        let ssize :=
          if is_inet6 (ai_family s) then sizeof_sockaddr_in6
          else sizeof_sockaddr_in in
        (true, Filled (firstn ssize (ai_addr s)))
      else PF_get_addr_scan next success addr
  end.

(** The result is the [bool] the function returns and what [*addr]
    holds afterwards.  [addr] is the address of a local in both callers, so
    the [Assert(addr != nullptr)] holds and is left out. *)
Definition PF_get_addr (host : option string) (port : Z)
           (addr : sockaddr_storage) : M W (bool * sockaddr_storage) :=
  let port := CInt.to_uint16 port in
  let hints :=
    {| hint_family := AF_UNSPEC; hint_socktype := SOCK_DGRAM;
       hint_AI_V4MAPPED := true;
       hint_AI_PASSIVE := match host with None => true | Some _ => false end |} in
  let port_str := Text.dec port in
  r <- getaddrinfo host port_str hints ;;
  let rval := fst r in
  let srvinfo := snd r in
  if negb (rval =? 0) then
    ml_printf ("PF_get_addr : getaddrinfo() => " +++ Ext.gai_strerror rval) ;;
    ret (false, addr)
  else
    let res := PF_get_addr_scan srvinfo false addr in
    freeaddrinfo ;;
    ret res.

(** *** The logging bridge *)

(** The callback registered with the engine (builds without [NDEBUG]
    only); the level is not looked at. *)
Definition PF_logger_fn (lvl : pcp_loglvl_e) (msg : string) : M W unit :=
  ml_printf ("Port forward => " +++ msg).

Definition PF_log_init : M W unit :=
  cf <- get_config ;;
  if NDEBUG cf then
    set_pcp_log_level PCP_LOGLVL_NONE
  else
    set_pcp_log_level PCP_LOGLVL_INFO ;;
    pcp_set_loggerfn.

(** *** [multi_port_forward_close] *)

Definition multi_port_forward_close : M W unit :=
  s <- get_statics ;;
  if negb (PF_initted s) then ret tt
  else
    pcp_terminate (PF_pcp_ctx s) 1 ;;
    (match PF_pcp_flow s with
     | Some _ => ml_string "Port forward => Mapping removed"
     | None => ml_string "Port forward => Shutdown"
     end) ;;
    modify_statics (with_ctx None) ;;
    modify_statics (with_flow None) ;;
    modify_statics (with_initted false) ;;
    modify_statics (with_wait_timestamp 0).

(** *** [multi_port_forward_init] *)

Definition multi_port_forward_init : M W unit :=
  let gateway_addr := Indeterminate in
  let local_addr := Indeterminate in
  let auto_discover := true in
  s <- get_statics ;;
  if PF_initted s then ret tt
  else
    cf <- get_config ;;
    g <- (match Cmdline_gateway_ip cf with
          | Some host =>
              r <- PF_get_addr (Some host) PCP_SERVER_PORT gateway_addr ;;
              if fst r then ret (false, snd r) else ret (auto_discover, snd r)
          | None => ret (auto_discover, gateway_addr)
          end) ;;
    let auto_discover := fst g in
    let gateway_addr := snd g in
    PF_log_init ;;
    ctx <- pcp_init (if auto_discover then ENABLE_AUTODISCOVERY
                     else DISABLE_AUTODISCOVERY) ;;
    modify_statics (with_ctx ctx) ;;
    s <- get_statics ;;
    match PF_pcp_ctx s with
    | None => ml_string "Port forward => Initialization failed!"
    | Some _ =>
        modify_statics (with_initted true) ;;
        (if negb auto_discover then
           pcp_add_server (PF_pcp_ctx s) gateway_addr PCP_MAX_SUPPORTED_VERSION
         else ret tt) ;;
        l <- PF_get_addr None (Psnet_default_port cf) local_addr ;;
        let local_addr := snd l in
        flow <- pcp_new_flow (PF_pcp_ctx s) local_addr IPPROTO_UDP PF_lifetime ;;
        modify_statics (with_flow flow) ;;
        match flow with
        | None =>
            ml_string "Port forward => Failed to init mapping!" ;;
            multi_port_forward_close
        | Some _ =>
            ml_string "Port forward => Initialized successfully" ;;
            wait_ms <- pcp_pulse (PF_pcp_ctx s) ;;
            now <- timer_get_milliseconds ;;
            modify_statics (with_wait_timestamp (CInt.add now wait_ms))
        end
    end.

(** *** [multi_port_forward_do] *)

(** The two lines logged for one entry of the info array. *)
Definition mapping_successful_line (info : pcp_flow_info_t) : string :=
  "Port forward => Mapping successful  [" +++
  Ext.inet_ntop_AF_INET6 (int_ip info) +++ "]:" +++
  Text.dec (Ext.ntohs (int_port info)) +++ " <-> [" +++
  Ext.inet_ntop_AF_INET6 (ext_ip info) +++ "]:" +++
  Text.dec (Ext.ntohs (ext_port info)).

(** What [time_str] holds after [strftime] on a broken-down time. *)
Definition time_str_of (t : tm) : string :=
  match Strftime.strftime 16 "%m/%d %H:%M:%S" t with
  | Some s => s
  | None => Ext.stale_time_str
  end.

Definition mapping_valid_line (t : tm) : string :=
  "Port forward => Mapping valid until " +++ time_str_of t.

(** The [for] loop over [flow_info[0 .. info_count)].  The result of
    [localtime] goes into [strftime] unchecked: when it is the null pointer
    the process dies there, after the first line of that entry.  The value
    says whether the loop ran to its end. *)
Fixpoint log_flow_info (flow_info : list pcp_flow_info_t) : M W bool :=
  match flow_info with
  | [] => ret true
  | info :: rest =>
      ml_printf (mapping_successful_line info) ;;
      match Ext.localtime (recv_lifetime_end info) with
      | None => crash ;; ret false
      | Some t =>
          ml_printf (mapping_valid_line t) ;;
          log_flow_info rest
      end
  end.

Definition multi_port_forward_do : M W unit :=
  s <- get_statics ;;
  if negb (PF_initted s) then ret tt
  else
    now <- timer_get_milliseconds ;;
    if PF_wait_timestamp s >? now then ret tt
    else
      wait_ms <- pcp_pulse (PF_pcp_ctx s) ;;
      now <- timer_get_milliseconds ;;
      modify_statics (with_wait_timestamp (CInt.add now wait_ms)) ;;
      r <- pcp_eval_flow_state (PF_pcp_flow s) ;;
      let state := snd r in
      if negb (fst r =? 0) then
        match state with
        | pcp_state_failed => ml_string "Port forward => Mapping failed!"
        | pcp_state_succeeded =>
            flow_info <- pcp_flow_get_info (PF_pcp_flow s) ;;
            match flow_info with
            | Some infos =>
                completed <- log_flow_info infos ;;
                if completed then free else ret tt
            | None => ret tt
            end
        | _ => ret tt
        end
      else ret tt.

End Code.

(* ------------------------------------------------------------------ *)
(** ** Histories of the public operations *)

(** The interface of [multi_portfwd.h]. *)
Inductive Op := OpInit | OpDo | OpClose.

Section Histories.

Context {W : Type} {C : Ext.Collaborators W}.

Definition run_op (op : Op) : M W unit :=
  match op with
  | OpInit => multi_port_forward_init
  | OpDo => multi_port_forward_do
  | OpClose => multi_port_forward_close
  end.

(** A history of calls; a process that has died makes no further call. *)
Fixpoint run_ops (ops : list Op) : M W unit :=
  match ops with
  | [] => ret tt
  | op :: rest =>
      fun m => if alive m then (run_op op ;; run_ops rest) m else ret tt m
  end.

(** The machine at program start. *)
Definition boot (cf : Config) (w : W) : Machine W :=
  {| cfg := cf; pf := PF_statics_init; world := w; alive := true |}.

End Histories.

(* ------------------------------------------------------------------ *)
(** ** Reading event lists *)
Module Obs.

Definition log_lines (evs : list Event) : list string :=
  flat_map (fun e => match e with EvLog l => [l] | _ => [] end) evs.

Definition is_pulse (e : Event) : bool :=
  match e with EvPulse _ _ => true | _ => false end.

Definition is_terminate (e : Event) : bool :=
  match e with EvTerminate _ _ => true | _ => false end.

Definition is_pcp_init (e : Event) : bool :=
  match e with EvPcpInit _ _ => true | _ => false end.

Definition is_constructed (e : Event) : bool :=
  match e with EvPcpInit _ (Some _) => true | _ => false end.

Definition is_new_flow (e : Event) : bool :=
  match e with EvNewFlow _ _ _ _ _ => true | _ => false end.

Definition is_add_server (e : Event) : bool :=
  match e with EvAddServer _ _ _ => true | _ => false end.

(** Any call into libpcp. *)
Definition is_engine_call (e : Event) : bool :=
  match e with
  | EvLogLevel _ | EvSetLoggerFn | EvPcpInit _ _ | EvAddServer _ _ _
  | EvNewFlow _ _ _ _ _ | EvPulse _ _ | EvEvalFlowState _ _ _
  | EvFlowGetInfo _ _ | EvTerminate _ _ => true
  | _ => false
  end.

Definition count (p : Event -> bool) (evs : list Event) : nat :=
  List.length (filter p evs).

Definition count_line (l : string) (evs : list Event) : nat :=
  List.length (filter (String.eqb l) (log_lines evs)).

(** The engine reported a change and the state it stored is [st]. *)
Definition is_transition_to (st : pcp_fstate_e) (e : Event) : bool :=
  match e with
  | EvEvalFlowState _ r s =>
      negb (r =? 0) &&
      match st, s with
      | pcp_state_failed, pcp_state_failed => true
      | pcp_state_succeeded, pcp_state_succeeded => true
      | pcp_state_processing, pcp_state_processing => true
      | pcp_state_partial_result, pcp_state_partial_result => true
      | pcp_state_short_lifetime_error, pcp_state_short_lifetime_error => true
      | _, _ => false
      end
  | _ => false
  end.

Definition is_get_info (e : Event) : bool :=
  match e with EvFlowGetInfo _ _ => true | _ => false end.

(** No null engine handle goes into [pcp_pulse] or [pcp_terminate]. *)
Definition ctx_arg_ok (e : Event) : bool :=
  match e with
  | EvPulse None _ | EvTerminate None _ => false
  | _ => true
  end.

Definition is_autodiscover_init (e : Event) : bool :=
  match e with EvPcpInit ENABLE_AUTODISCOVERY _ => true | _ => false end.

(** The [getaddrinfo] results that were errors, oldest first. *)
Definition failed_resolutions (evs : list Event) : list Z :=
  flat_map (fun e => match e with
                     | EvGetAddrInfo _ _ _ rval _ =>
                         if negb (rval =? 0) then [rval] else []
                     | _ => []
                     end) evs.

Definition PF_prefix : string := "Port forward => ".

(** The logged lines that do not start with [PF_prefix]. *)
Definition unprefixed_lines (evs : list Event) : list string :=
  filter (fun l => negb (String.prefix PF_prefix l)) (log_lines evs).

(** More readers, for the statements beyond the claims. *)

Definition is_getaddrinfo (e : Event) : bool :=
  match e with EvGetAddrInfo _ _ _ _ _ => true | _ => false end.

Definition is_freeaddrinfo (e : Event) : bool :=
  match e with EvFreeAddrInfo => true | _ => false end.

Definition is_log_level (e : Event) : bool :=
  match e with EvLogLevel _ => true | _ => false end.

Definition is_set_loggerfn (e : Event) : bool :=
  match e with EvSetLoggerFn => true | _ => false end.

(** [pcp_init] answered null. *)
Definition is_init_failed (e : Event) : bool :=
  match e with EvPcpInit _ None => true | _ => false end.

(** [pcp_new_flow] answered null, resp. a flow. *)
Definition is_flow_refused (e : Event) : bool :=
  match e with EvNewFlow _ _ _ _ None => true | _ => false end.

Definition is_flow_made (e : Event) : bool :=
  match e with EvNewFlow _ _ _ _ (Some _) => true | _ => false end.

Definition is_eval (e : Event) : bool :=
  match e with EvEvalFlowState _ _ _ => true | _ => false end.

Definition is_timer (e : Event) : bool :=
  match e with EvTimer _ => true | _ => false end.

(** The events before the first one that satisfies [p]. *)
Fixpoint before (p : Event -> bool) (evs : list Event) : list Event :=
  match evs with
  | [] => []
  | e :: rest => if p e then [] else e :: before p rest
  end.

Definition is_some {A} (o : option A) : bool :=
  match o with Some _ => true | None => false end.

Definition is_filled (a : sockaddr_storage) : bool :=
  match a with Filled _ => true | Indeterminate => false end.

(** The arguments the module may hand to the engine's state-changing
    calls: a flow is requested on a live context for [PF_lifetime]
    seconds, a server is added on a live context, from a written address
    and at [PCP_MAX_SUPPORTED_VERSION], a context is terminated with the
    flag 1. *)
Definition call_args_ok (e : Event) : bool :=
  match e with
  | EvNewFlow ctx _ IPPROTO_UDP lifetime _ => is_some ctx && (lifetime =? PF_lifetime)
  | EvAddServer ctx server version =>
      is_some ctx && is_filled server && (version =? PCP_MAX_SUPPORTED_VERSION)
  | EvTerminate _ close_flows => close_flows =? 1
  | _ => true
  end.

(** No null flow goes into [pcp_eval_flow_state] or [pcp_flow_get_info]. *)
Definition flow_arg_ok (e : Event) : bool :=
  match e with
  | EvEvalFlowState None _ _ | EvFlowGetInfo None _ => false
  | _ => true
  end.

(** Every lookup asks for datagram sockets of any family with
    [AI_V4MAPPED], passively exactly when no host is named. *)
Definition lookup_args_ok (e : Event) : bool :=
  match e with
  | EvGetAddrInfo host _ hints _ _ =>
      match hint_family hints, hint_socktype hints with
      | AF_UNSPEC, SOCK_DGRAM =>
          hint_AI_V4MAPPED hints &&
          Bool.eqb (hint_AI_PASSIVE hints) (negb (is_some host))
      | _, _ => false
      end
  | _ => true
  end.

End Obs.

(* ------------------------------------------------------------------ *)
(** ** Notions the statements use *)

Section Notions.

Context {W : Type} {C : Ext.Collaborators W}.

Implicit Types (m : Machine W) (s : PF_statics).

(** The call is turned away at one of the two early returns of
    [multi_port_forward_do]. *)
Definition not_due m : Prop :=
  PF_initted (pf m) = false \/
  PF_wait_timestamp (pf m) > fst (Ext.timer_get_milliseconds (world m)).

(** The answers the outside gives along a due call, each asked in the
    world the previous call left. *)
Definition due_clock m := Ext.timer_get_milliseconds (world m).
Definition due_pulse m :=
  Ext.pcp_pulse (PF_pcp_ctx (pf m)) (snd (due_clock m)).
Definition due_clock2 m := Ext.timer_get_milliseconds (snd (due_pulse m)).
Definition due_eval m :=
  Ext.pcp_eval_flow_state (PF_pcp_flow (pf m)) (snd (due_clock2 m)).
Definition due_info m :=
  Ext.pcp_flow_get_info (PF_pcp_flow (pf m)) (snd (due_eval m)).

(** The two lines of an entry whose lease end converts to [t]. *)
Definition info_lines (info : pcp_flow_info_t) (t : tm) : list string :=
  [mapping_successful_line info; mapping_valid_line t].

Definition entries (res : option (list pcp_flow_info_t)) : list pcp_flow_info_t :=
  match res with Some infos => infos | None => [] end.

(** [localtime] converts the lease end of the entry. *)
Definition converts (info : pcp_flow_info_t) : bool :=
  Obs.is_some (Ext.localtime (recv_lifetime_end info)).

(** The lines the loop over the entries gets to log: two per entry, up to
    and including the first line of the first entry that does not
    convert. *)
Fixpoint reported_lines (infos : list pcp_flow_info_t) : list string :=
  match infos with
  | [] => []
  | info :: rest =>
      match Ext.localtime (recv_lifetime_end info) with
      | None => [mapping_successful_line info]
      | Some t => info_lines info t ++ reported_lines rest
      end
  end.

(** What follows a [pcp_flow_get_info] answer: the lines of the loop, then
    the [free] of a non-null array if the loop ran to its end. *)
Definition info_report (res : option (list pcp_flow_info_t)) : list Event :=
  match res with
  | Some infos =>
      map EvLog (reported_lines infos) ++
      (if forallb converts infos then [EvFree] else [])
  | None => []
  end.

Definition transition_report m : list Event :=
  let r := fst (due_eval m) in
  if fst r =? 0 then []
  else match snd r with
       | pcp_state_failed => [EvLog "Port forward => Mapping failed!"]
       | pcp_state_succeeded =>
           EvFlowGetInfo (PF_pcp_flow (pf m)) (fst (due_info m))
             :: info_report (fst (due_info m))
       | _ => []
       end.

Definition failed_line : string := "Port forward => Mapping failed!".

(** The "valid until" line for a broken-down time: month/day
    hour:minute:second, two digits each. *)
Definition valid_until_MMDD_HHMMSS (t : tm) : Prop :=
  mapping_valid_line t =
    "Port forward => Mapping valid until " +++
    (Text.pad2 (tm_mon t + 1) +++ "/" +++ Text.pad2 (tm_mday t) +++ " " +++
     Text.pad2 (tm_hour t) +++ ":" +++ Text.pad2 (tm_min t) +++ ":" +++
     Text.pad2 (tm_sec t)) /\
  Text.is_MMDD_HHMMSS (time_str_of t) = true.

(** The call gets past both early returns of [multi_port_forward_do]. *)
Definition is_due m : bool :=
  PF_initted (pf m) && negb (PF_wait_timestamp (pf m) >? fst (due_clock m)).

(** The lease end as [strftime] prints a well-formed broken-down time. *)
Definition lease_end_text (t : tm) : string :=
  Text.pad2 (tm_mon t + 1) +++ "/" +++ Text.pad2 (tm_mday t) +++ " " +++
  Text.pad2 (tm_hour t) +++ ":" +++ Text.pad2 (tm_min t) +++ ":" +++
  Text.pad2 (tm_sec t).

(** The two lines of an entry, written out; none for an entry whose lease
    end does not convert. *)
Definition complete_lines (info : pcp_flow_info_t) : list string :=
  match Ext.localtime (recv_lifetime_end info) with
  | Some t =>
      ["Port forward => Mapping successful  [" +++
       Ext.inet_ntop_AF_INET6 (int_ip info) +++ "]:" +++
       Text.dec (Ext.ntohs (int_port info)) +++ " <-> [" +++
       Ext.inet_ntop_AF_INET6 (ext_ip info) +++ "]:" +++
       Text.dec (Ext.ntohs (ext_port info));
       "Port forward => Mapping valid until " +++ lease_end_text t]
  | None => []
  end.

(** [localtime] converts the lease end of the entry, to a well-formed
    broken-down time. *)
Definition converts_well (info : pcp_flow_info_t) : Prop :=
  exists t, Ext.localtime (recv_lifetime_end info) = Some t /\ tm_wf t.

Definition successful_prefix : string := "Port forward => Mapping successful  [".
Definition valid_prefix : string := "Port forward => Mapping valid until ".

(** An initialised module holds an engine context. *)
Definition ctx_invariant s : Prop :=
  PF_initted s = true -> PF_pcp_ctx s <> None.

(** A module that is not initialised holds nothing. *)
Definition idle_is_clean s : Prop :=
  PF_initted s = false -> s = PF_statics_init.

Definition b2n (b : bool) : nat := if b then 1%nat else 0%nat.

Definition removed_line : string := "Port forward => Mapping removed".
Definition shutdown_line : string := "Port forward => Shutdown".

Definition ctx_arg_bad (e : Event) : bool := negb (Obs.ctx_arg_ok e).

(** What one public operation does to the invariants and the counts. *)
Record step_ok (m : Machine W) (o : Outcome W unit) : Prop := {
  step_ctx : ctx_invariant (pf (after o));
  step_clean : idle_is_clean (pf (after o));
  step_cfg : cfg (after o) = cfg m;
  step_args : Obs.count ctx_arg_bad (events o) = 0%nat;
  step_balance :
    (Obs.count Obs.is_terminate (events o) + b2n (PF_initted (pf (after o))) =
     Obs.count Obs.is_constructed (events o) + b2n (PF_initted (pf m)))%nat;
  step_lines :
    (Obs.count_line removed_line (events o) +
     Obs.count_line shutdown_line (events o) =
     Obs.count Obs.is_terminate (events o))%nat
}.

(** Idempotence of initialisation without any proviso: whatever the
    first call did, the second is a no-op and the engine was constructed
    once over the two calls. *)
Definition second_init_is_noop m : Prop :=
  let o1 := multi_port_forward_init m in
  let o2 := multi_port_forward_init (after o1) in
  o2 = {| value := tt; after := after o1; events := [] |} /\
  Obs.count Obs.is_pcp_init (events o1 ++ events o2) = 1%nat.

Definition resolver_line (rval : Z) : string :=
  "PF_get_addr : getaddrinfo() => " +++ Ext.gai_strerror rval.

(** *** Notions for [PF_get_addr] *)

(** A node the loop of [PF_get_addr] accepts. *)
Definition usable (a : addrinfo) : bool :=
  is_inet (ai_family a) || is_inet6 (ai_family a).

(** The number of bytes the [memcpy] takes from a node. *)
Definition copied_size (a : addrinfo) : nat :=
  if is_inet6 (ai_family a) then sizeof_sockaddr_in6 else sizeof_sockaddr_in.

Definition PF_hints (host : option string) : addrinfo_hints :=
  {| hint_family := AF_UNSPEC; hint_socktype := SOCK_DGRAM;
     hint_AI_V4MAPPED := true;
     hint_AI_PASSIVE := match host with None => true | Some _ => false end |}.

(** The answer of the one [getaddrinfo] call of [PF_get_addr]. *)
Definition lookup (host : option string) (port : Z) m :=
  Ext.getaddrinfo host (Text.dec (CInt.to_uint16 port)) (PF_hints host) (world m).

Definition lookup_rval host port m : Z := fst (fst (lookup host port m)).
Definition lookup_list host port m : list addrinfo := snd (fst (lookup host port m)).

(** *** More invariants and lines *)

(** An initialised module holds a flow. *)
Definition flow_invariant s : Prop :=
  PF_initted s = true -> PF_pcp_flow s <> None.

Definition init_failed_line : string := "Port forward => Initialization failed!".
Definition flow_failed_line : string := "Port forward => Failed to init mapping!".
Definition init_ok_line : string := "Port forward => Initialized successfully".

(** The clock reading the next call of [multi_port_forward_do] will
    compare with. *)
Definition next_clock m : Z := fst (Ext.timer_get_milliseconds (world m)).

(** What one public operation does to the flow invariant, the arguments
    of its calls and the lines it logs. *)
Record step_more (m : Machine W) (o : Outcome W unit) : Prop := {
  more_flow : flow_invariant (pf (after o));
  more_calls : forallb Obs.call_args_ok (events o) = true;
  more_flows : forallb Obs.flow_arg_ok (events o) = true;
  more_lookups : forallb Obs.lookup_args_ok (events o) = true;
  more_init_failed :
    Obs.count_line init_failed_line (events o) =
    Obs.count Obs.is_init_failed (events o);
  more_flow_failed :
    Obs.count_line flow_failed_line (events o) =
    Obs.count Obs.is_flow_refused (events o);
  more_shutdown :
    Obs.count_line shutdown_line (events o) =
    Obs.count Obs.is_flow_refused (events o);
  more_init_ok :
    Obs.count_line init_ok_line (events o) =
    Obs.count Obs.is_flow_made (events o);
  more_log_level :
    Obs.count Obs.is_log_level (events o) = Obs.count Obs.is_pcp_init (events o)
}.

End Notions.

(* ------------------------------------------------------------------ *)
(** ** A scripted world for concrete runs *)

Module Sample.

(** The world is the clock; every answer is a function of it. *)
Record Script := {
  sc_resolve : option string -> Z * list addrinfo;
  sc_ctx : pcp_ctx_ptr;
  sc_flow : pcp_flow_ptr;
  sc_wait : Z;
  sc_eval : Z -> Z * pcp_fstate_e;
  sc_info : option (list pcp_flow_info_t)
}.

(** A fixed-offset "local time": seconds since midnight of 1 January,
    every month taken as 31 days. *)
Definition clock_tm (t : Z) : tm :=
  {| tm_sec := t mod 60; tm_min := (t / 60) mod 60; tm_hour := (t / 3600) mod 24;
     tm_mday := (t / 86400) mod 31 + 1; tm_mon := (t / 2678400) mod 12 |}.

#[local] Instance scripted (sc : Script) : Ext.Collaborators Z := {|
  Ext.timer_get_milliseconds := fun w => (w, w + 10);
  Ext.getaddrinfo := fun host _ _ w => (sc_resolve sc host, w);
  Ext.gai_strerror := fun r =>
    if r =? -3 then "Temporary failure in name resolution"
    else "Name or service not known";
  Ext.set_pcp_log_level := fun _ w => w;
  Ext.pcp_set_loggerfn := fun w => w;
  Ext.pcp_init := fun _ w => (sc_ctx sc, w);
  Ext.pcp_add_server := fun _ _ _ w => w;
  Ext.pcp_new_flow := fun _ _ _ _ w => (sc_flow sc, w);
  Ext.pcp_pulse := fun _ w => (sc_wait sc, w);
  Ext.pcp_eval_flow_state := fun _ w => (sc_eval sc w, w);
  Ext.pcp_flow_get_info := fun _ w => (sc_info sc, w);
  Ext.pcp_terminate := fun _ _ w => w;
  Ext.inet_ntop_AF_INET6 := fun a => if (a =? 1)%N then "::1" else "::ffff:192.0.2.7";
  Ext.ntohs := fun p => (p mod 256) * 256 + p / 256;
  Ext.localtime := fun t =>
    if (0 <=? t) && (t <? 67767976233532800) then Some (clock_tm t) else None;
  Ext.stale_time_str := ""
|}.

Definition wildcard : addrinfo :=
  {| ai_family := AF_INET6; ai_addr := repeat Byte.x00 28 |}.

Definition info1 : pcp_flow_info_t :=
  {| int_ip := 1; ext_ip := 2; int_port := 32798; ext_port := 32798;
     recv_lifetime_end := 3 * 86400 + 7 * 3600 + 5 * 60 + 9 |}.

(** Resolver up for the wildcard only ([EAI_NONAME] for any host name),
    engine up, the mapping reported as failed on the first evaluation. *)
Definition failing_flow : Script :=
  {| sc_resolve := fun h => match h with None => (0, [wildcard]) | Some _ => (-2, []) end;
     sc_ctx := Some 1%N; sc_flow := Some 2%N; sc_wait := 250;
     sc_eval := fun w => if w <? 1100 then (1, pcp_state_failed) else (0, pcp_state_failed);
     sc_info := None |}.

(** The same with a mapping that succeeds. *)
Definition good_flow : Script :=
  {| sc_resolve := fun h => match h with None => (0, [wildcard]) | Some _ => (-2, []) end;
     sc_ctx := Some 1%N; sc_flow := Some 2%N; sc_wait := 250;
     sc_eval := fun _ => (1, pcp_state_succeeded);
     sc_info := Some [info1; info1] |}.

(** Engine construction fails. *)
Definition no_engine : Script :=
  {| sc_resolve := fun h => match h with None => (0, [wildcard]) | Some _ => (-2, []) end;
     sc_ctx := None; sc_flow := None; sc_wait := 250;
     sc_eval := fun _ => (0, pcp_state_processing);
     sc_info := None |}.

(** The resolver fails for every request ([EAI_AGAIN]). *)
Definition no_resolver : Script :=
  {| sc_resolve := fun _ => (-3, []);
     sc_ctx := Some 1%N; sc_flow := Some 2%N; sc_wait := 250;
     sc_eval := fun _ => (0, pcp_state_processing);
     sc_info := None |}.

Definition config (gw : option string) : Config :=
  {| Cmdline_gateway_ip := gw; Psnet_default_port := 7808; NDEBUG := true |}.

Definition start (gw : option string) : Machine Z := boot (config gw) 1000.

(** An initialised module whose next pulse is due at [ts]; the clock
    shows 1000. *)
Definition running (ts : Z) : Machine Z :=
  {| cfg := config None;
     pf := {| PF_initted := true; PF_pcp_flow := Some 2%N;
              PF_pcp_ctx := Some 1%N; PF_wait_timestamp := ts |};
     world := 1000; alive := true |}.

(** The operations in the scripted worlds. *)
Definition init_in (sc : Script) : M Z unit :=
  multi_port_forward_init (C := scripted sc).
Definition do_in (sc : Script) : M Z unit :=
  multi_port_forward_do (C := scripted sc).
Definition close_in (sc : Script) : M Z unit :=
  multi_port_forward_close (C := scripted sc).
Definition history_in (sc : Script) (ops : list Op) : M Z unit :=
  run_ops (C := scripted sc) ops.

Definition passive_hints : addrinfo_hints :=
  {| hint_family := AF_UNSPEC; hint_socktype := SOCK_DGRAM;
     hint_AI_V4MAPPED := true; hint_AI_PASSIVE := true |}.

Definition gateway_hints : addrinfo_hints :=
  {| hint_family := AF_UNSPEC; hint_socktype := SOCK_DGRAM;
     hint_AI_V4MAPPED := true; hint_AI_PASSIVE := false |}.

(** A lookup that answers three nodes: one of a foreign family, then an
    IPv4 one, then an IPv6 one. *)
Definition node (f : family) (b : Byte.byte) : addrinfo :=
  {| ai_family := f; ai_addr := repeat b 32 |}.

Definition mixed_results : Script :=
  {| sc_resolve := fun _ => (0, [node (AF_other 1) Byte.x01; node AF_INET Byte.x02;
                                 node AF_INET6 Byte.x03]);
     sc_ctx := Some 1%N; sc_flow := Some 2%N; sc_wait := 250;
     sc_eval := fun _ => (1, pcp_state_short_lifetime_error);
     sc_info := None |}.

(** A lookup that succeeds with a foreign family only. *)
Definition foreign_results : Script :=
  {| sc_resolve := fun _ => (0, [node (AF_other 1) Byte.x01]);
     sc_ctx := Some 1%N; sc_flow := None; sc_wait := 250;
     sc_eval := fun _ => (0, pcp_state_processing);
     sc_info := None |}.

(** An engine whose pulse asks to be called again at once. *)
Definition zero_hint : Script :=
  {| sc_resolve := fun h => match h with None => (0, [wildcard]) | Some _ => (-2, []) end;
     sc_ctx := Some 1%N; sc_flow := Some 2%N; sc_wait := 0;
     sc_eval := fun _ => (0, pcp_state_processing);
     sc_info := None |}.

(** A mapping whose lease end is beyond what [localtime] converts, ahead of
    one that converts. *)
Definition info_far : pcp_flow_info_t :=
  {| int_ip := 1; ext_ip := 2; int_port := 32798; ext_port := 32798;
     recv_lifetime_end := 9223372036854775807 |}.

Definition far_lease : Script :=
  {| sc_resolve := fun h => match h with None => (0, [wildcard]) | Some _ => (-2, []) end;
     sc_ctx := Some 1%N; sc_flow := Some 2%N; sc_wait := 250;
     sc_eval := fun _ => (1, pcp_state_succeeded);
     sc_info := Some [info_far; info1] |}.

(** The gateway name resolves, the engine comes up. *)
Definition manual_gateway : Script :=
  {| sc_resolve := fun _ => (0, [node AF_INET Byte.x02]);
     sc_ctx := Some 1%N; sc_flow := Some 2%N; sc_wait := 250;
     sc_eval := fun _ => (0, pcp_state_processing);
     sc_info := None |}.

End Sample.
(* ------------------------------------------------------------------ *)
(** ** Proof support *)

(** Unfold the monad and the wrappers of the external calls. *)
Ltac unfold_monad :=
unfold bind, ret, get_statics, modify_statics, get_config, ask, tell in *.

Ltac unfold_calls :=
unfold timer_get_milliseconds, getaddrinfo, freeaddrinfo, set_pcp_log_level,
  pcp_set_loggerfn, pcp_init, pcp_add_server, pcp_new_flow, pcp_pulse,
  pcp_eval_flow_state, pcp_flow_get_info, pcp_terminate, free, ml_string,
  ml_printf in *.

Ltac run_code :=
  unfold_calls; unfold_monad; cbn [value after events cfg pf world alive app].

(** Open [multi_port_forward_init] with its helpers. *)
Ltac run_init :=
  unfold multi_port_forward_init, PF_log_init, PF_get_addr; run_code.

(** Case analysis on every test the code makes on an answer. *)
Ltac split_branches :=
repeat match goal with
       | |- context [match ?x with Some _ => _ | None => _ end] =>
           destruct x eqn:?; cbn
       | |- context [if ?c then _ else _] => destruct c eqn:?; cbn
       end.
(** *** Facts about event lists *)

Module ObsFacts.

Import Obs.

Lemma log_lines_app a b : log_lines (a ++ b) = log_lines a ++ log_lines b.
Proof. unfold log_lines. now rewrite flat_map_app. Qed.

Lemma count_app p a b : count p (a ++ b) = (count p a + count p b)%nat.
Proof. unfold count. now rewrite filter_app, List.length_app. Qed.

Lemma count_line_app l a b :
  count_line l (a ++ b) = (count_line l a + count_line l b)%nat.
Proof. unfold count_line. now rewrite log_lines_app, filter_app, List.length_app. Qed.

Lemma failed_resolutions_app a b :
  failed_resolutions (a ++ b) = failed_resolutions a ++ failed_resolutions b.
Proof. unfold failed_resolutions. now rewrite flat_map_app. Qed.

Lemma unprefixed_lines_app a b :
  unprefixed_lines (a ++ b) = unprefixed_lines a ++ unprefixed_lines b.
Proof. unfold unprefixed_lines. now rewrite log_lines_app, filter_app. Qed.

End ObsFacts.

(** *** Facts about the printed text *)

Module TextFacts.

Lemma pad2_table :
  forallb (fun n => Text.two_digits (Text.pad2 (Z.of_nat n))) (seq 0 100) = true.
Proof. vm_compute. reflexivity. Qed.

(** A field between 0 and 99 prints as exactly two digits. *)
Lemma pad2_two_digits (v : Z) :
  0 <= v <= 99 ->
  exists a b, Text.pad2 v = String a (String b EmptyString) /\
              Text.is_digit a = true /\ Text.is_digit b = true.
Proof.
  intros H.
  assert (Hin : In (Z.to_nat v) (seq 0 100)) by (apply in_seq; lia).
  pose proof (proj1 (forallb_forall _ _) pad2_table _ Hin) as Ht.
  cbv beta in Ht. rewrite Z2Nat.id in Ht by lia.
  unfold Text.two_digits in Ht.
  destruct (Text.pad2 v) as [|a [|b [|c r]]]; try discriminate.
  apply andb_prop in Ht. exists a, b. tauto.
Qed.

(** The format string of the module on a well-formed broken-down time. *)
Lemma strftime_mdHMS (t : tm) :
  tm_wf t ->
  Strftime.strftime 16 "%m/%d %H:%M:%S" t =
    Some (Text.pad2 (tm_mon t + 1) +++ "/" +++ Text.pad2 (tm_mday t) +++ " " +++
          Text.pad2 (tm_hour t) +++ ":" +++ Text.pad2 (tm_min t) +++ ":" +++
          Text.pad2 (tm_sec t)) /\
  Text.is_MMDD_HHMMSS
    (Text.pad2 (tm_mon t + 1) +++ "/" +++ Text.pad2 (tm_mday t) +++ " " +++
     Text.pad2 (tm_hour t) +++ ":" +++ Text.pad2 (tm_min t) +++ ":" +++
     Text.pad2 (tm_sec t)) = true.
Proof.
  intros (Hs & Hm & Hh & Hd & Ho).
  destruct (pad2_two_digits (tm_mon t + 1)) as (a1 & a2 & E1 & A1 & A2); [lia|].
  destruct (pad2_two_digits (tm_mday t)) as (b1 & b2 & E2 & B1 & B2); [lia|].
  destruct (pad2_two_digits (tm_hour t)) as (c1 & c2 & E3 & C1 & C2); [lia|].
  destruct (pad2_two_digits (tm_min t)) as (d1 & d2 & E4 & D1 & D2); [lia|].
  destruct (pad2_two_digits (tm_sec t)) as (e1 & e2 & E5 & F1 & F2); [lia|].
  unfold Strftime.strftime. cbn [Strftime.expand Ascii.eqb Bool.eqb].
  unfold Strftime.conv. cbn [Ascii.eqb Bool.eqb].
  rewrite E1, E2, E3, E4, E5. cbn [String.append String.length].
  split; [reflexivity|].
  unfold Text.is_MMDD_HHMMSS. cbn [list_ascii_of_string].
  rewrite A1, A2, B1, B2, C1, C2, D1, D2, F1, F2. reflexivity.
Qed.

End TextFacts.

Section Facts.

Context {W : Type} {C : Ext.Collaborators W}.

Implicit Types (m : Machine W) (s : PF_statics).

Lemma machine_eta m :
  {| cfg := cfg m; pf := pf m; world := world m; alive := alive m |} = m.
Proof. now destruct m. Qed.

(** *** The due-time gate *)

(** C1.  A call of [multi_port_forward_do] made while the module is not
    initialised, or while the clock reading is still below
    [PF_wait_timestamp], makes no call into the engine (no pulse in
    particular), logs nothing and leaves the four statics as they were.
    Its only contact with the outside is the one clock reading of the
    comparison, and not even that when not initialised. *)
Theorem do_before_due_is_noop m :
  not_due m ->
  let o := multi_port_forward_do m in
  pf (after o) = pf m /\
  cfg (after o) = cfg m /\
  events o =
    (if PF_initted (pf m)
     then [EvTimer (fst (Ext.timer_get_milliseconds (world m)))]
     else []) /\
  Obs.count Obs.is_pulse (events o) = 0%nat /\
  Obs.count Obs.is_engine_call (events o) = 0%nat /\
  Obs.log_lines (events o) = [].
Proof.
  intros H. unfold not_due in H. unfold multi_port_forward_do. run_code.
  destruct (PF_initted (pf m)) eqn:Hi; cbn.
  - destruct H as [H | H]; [discriminate|].
    apply Z.gtb_gt in H. rewrite H. cbn. repeat split; reflexivity.
  - repeat split; reflexivity.
Qed.

Lemma close_run m :
  multi_port_forward_close m =
  if PF_initted (pf m) then
    {| value := tt;
       after := {| cfg := cfg m; pf := PF_statics_init;
                   world := Ext.pcp_terminate (PF_pcp_ctx (pf m)) 1 (world m);
                   alive := alive m |};
       events := [EvTerminate (PF_pcp_ctx (pf m)) 1;
                  EvLog (match PF_pcp_flow (pf m) with
                         | Some _ => "Port forward => Mapping removed"
                         | None => "Port forward => Shutdown"
                         end)] |}
  else {| value := tt; after := m; events := [] |}.
Proof.
  unfold multi_port_forward_close. run_code.
  destruct (PF_initted (pf m)); cbn; [|reflexivity].
  destruct (PF_pcp_flow (pf m)); reflexivity.
Qed.

(** *** One due call of [multi_port_forward_do], step by step *)

Lemma log_flow_info_run infos m :
  log_flow_info infos m =
  {| value := forallb converts infos;
     after := if forallb converts infos then m else kill m;
     events := map EvLog (reported_lines infos) |}.
Proof.
  revert m. induction infos as [|i infos IH]; intros m;
    cbn [log_flow_info forallb reported_lines].
  - reflexivity.
  - unfold converts at 1 3. unfold crash, kill.
    destruct (Ext.localtime (recv_lifetime_end i)) as [t|]; run_code;
      cbn [Obs.is_some andb].
    + rewrite machine_eta, IH. reflexivity.
    + reflexivity.
Qed.

Lemma do_due_run m :
  PF_initted (pf m) = true ->
  (PF_wait_timestamp (pf m) >? fst (due_clock m)) = false ->
  let o := multi_port_forward_do m in
  events o =
    [EvTimer (fst (due_clock m));
     EvPulse (PF_pcp_ctx (pf m)) (fst (due_pulse m));
     EvTimer (fst (due_clock2 m));
     EvEvalFlowState (PF_pcp_flow (pf m)) (fst (fst (due_eval m)))
                     (snd (fst (due_eval m)))]
    ++ transition_report m /\
  pf (after o) =
    with_wait_timestamp (CInt.add (fst (due_clock2 m)) (fst (due_pulse m))) (pf m) /\
  cfg (after o) = cfg m.
Proof.
  intros Hi Hdue. unfold multi_port_forward_do, transition_report.
  unfold due_info, due_eval, due_clock2, due_pulse, due_clock in *.
  run_code. rewrite Hi. cbn. rewrite Hdue. cbn.
  destruct (fst (fst (Ext.pcp_eval_flow_state _ _)) =? 0) eqn:Hz; cbn.
  - repeat split; reflexivity.
  - destruct (snd (fst (Ext.pcp_eval_flow_state _ _))) eqn:Hs; cbn;
      try (repeat split; reflexivity).
    destruct (fst (Ext.pcp_flow_get_info _ _)) as [infos|] eqn:Hg; cbn.
    + rewrite log_flow_info_run. cbn.
      destruct (forallb converts infos); cbn; repeat split; reflexivity.
    + repeat split; reflexivity.
Qed.

Lemma do_idle_run m :
  not_due m ->
  let o := multi_port_forward_do m in
  events o = (if PF_initted (pf m) then [EvTimer (fst (due_clock m))] else []) /\
  pf (after o) = pf m /\ cfg (after o) = cfg m.
Proof.
  intros H. unfold not_due in H. unfold multi_port_forward_do, due_clock. run_code.
  destruct (PF_initted (pf m)) eqn:Hi; cbn.
  - destruct H as [H | H]; [discriminate|].
    apply Z.gtb_gt in H. rewrite H. cbn. repeat split; reflexivity.
  - repeat split; reflexivity.
Qed.

(** Either early return, or the due path. *)
Lemma due_or_not m :
  not_due m \/
  (PF_initted (pf m) = true /\
   (PF_wait_timestamp (pf m) >? fst (due_clock m)) = false).
Proof.
  unfold not_due, due_clock.
  destruct (PF_initted (pf m)); [|left; left; reflexivity].
  destruct (PF_wait_timestamp (pf m) >? fst (Ext.timer_get_milliseconds (world m)))
    eqn:E.
  - left. right. now apply Z.gtb_gt.
  - right. split; reflexivity.
Qed.

(** *** Sequencing *)

Lemma bind_events {A B} (c : M W A) (k : A -> M W B) m :
  events (bind c k m) = events (c m) ++ events (k (value (c m)) (after (c m))).
Proof. unfold bind. destruct (c m) as [a m1 e1]. cbn. now destruct (k a m1). Qed.

Lemma bind_after {A B} (c : M W A) (k : A -> M W B) m :
  after (bind c k m) = after (k (value (c m)) (after (c m))).
Proof. unfold bind. destruct (c m) as [a m1 e1]. cbn. now destruct (k a m1). Qed.

Lemma run_ops_cons_events op ops m :
  alive m = true ->
  events (run_ops (op :: ops) m) =
  events (run_op op m) ++ events (run_ops ops (after (run_op op m))).
Proof. intros A. cbn [run_ops]. rewrite A. now rewrite bind_events. Qed.

Lemma run_ops_cons_after op ops m :
  alive m = true ->
  after (run_ops (op :: ops) m) = after (run_ops ops (after (run_op op m))).
Proof. intros A. cbn [run_ops]. rewrite A. now rewrite bind_after. Qed.

(** A dead process makes no call. *)
Lemma run_ops_dead ops m :
  alive m = false ->
  run_ops ops m = {| value := tt; after := m; events := [] |}.
Proof. intros A. destruct ops; cbn [run_ops]; [|rewrite A]; reflexivity. Qed.

(** *** Terminal reports *)

Lemma no_failed_line_in_info_lines infos :
  filter (String.eqb failed_line) (reported_lines infos) = [].
Proof.
  induction infos as [|i infos IH]; [reflexivity|].
  cbn [reported_lines].
  destruct (Ext.localtime (recv_lifetime_end i)) as [t|];
    cbn [info_lines app filter];
    unfold mapping_successful_line, mapping_valid_line, failed_line in *;
    cbn; [exact IH | reflexivity].
Qed.

Lemma log_lines_report_tail infos :
  Obs.log_lines (if forallb converts infos then [EvFree] else []) = [].
Proof. now destruct (forallb converts infos). Qed.

(** The events after the lines of a report: the [free], or nothing. *)
Lemma count_report_tail p infos :
  p EvFree = false ->
  Obs.count p (if forallb converts infos then [EvFree] else []) = 0%nat.
Proof.
  intros H. unfold Obs.count.
  destruct (forallb converts infos); cbn; [now rewrite H | reflexivity].
Qed.

Lemma log_lines_map_EvLog ls : Obs.log_lines (map EvLog ls) = ls.
Proof. induction ls as [|l ls IH]; cbn; [reflexivity | f_equal; exact IH]. Qed.

Lemma count_map_EvLog p ls :
  (forall l, p (EvLog l) = false) -> Obs.count p (map EvLog ls) = 0%nat.
Proof.
  intros H. unfold Obs.count.
  induction ls as [|l ls IH]; cbn; [reflexivity | now rewrite H].
Qed.

Lemma info_report_counts res :
  Obs.count_line failed_line (info_report res) = 0%nat /\
  Obs.count Obs.is_get_info (info_report res) = 0%nat /\
  Obs.count (Obs.is_transition_to pcp_state_failed) (info_report res) = 0%nat /\
  Obs.count (Obs.is_transition_to pcp_state_succeeded) (info_report res) = 0%nat.
Proof.
  destruct res as [infos|]; cbn [info_report]; [|repeat split; reflexivity].
  rewrite ObsFacts.count_line_app, !ObsFacts.count_app.
  rewrite !count_map_EvLog, !count_report_tail by reflexivity.
  unfold Obs.count_line. rewrite log_lines_map_EvLog, log_lines_report_tail.
  rewrite no_failed_line_in_info_lines. repeat split; reflexivity.
Qed.

Lemma transition_report_quiet (p : Event -> bool) m :
  (forall l, p (EvLog l) = false) ->
  p EvFree = false ->
  (forall f r, p (EvFlowGetInfo f r) = false) ->
  Obs.count p (transition_report m) = 0%nat.
Proof.
  intros Hl Hf Hg. unfold transition_report.
  destruct (fst (fst (due_eval m)) =? 0); [reflexivity|].
  destruct (snd (fst (due_eval m))); try reflexivity.
  - unfold Obs.count. cbn [filter]. rewrite Hg.
    destruct (fst (due_info m)) as [infos|]; cbn [info_report]; [|reflexivity].
    fold (Obs.count p (map EvLog (reported_lines infos) ++
                       (if forallb converts infos then [EvFree] else []))).
    rewrite ObsFacts.count_app, count_map_EvLog by exact Hl.
    now rewrite count_report_tail.
  - unfold Obs.count. cbn. now rewrite Hl.
Qed.

(** The lines of a transition report, from the engine's answer. *)
Lemma transition_report_lines m :
  Obs.log_lines (transition_report m) =
  if fst (fst (due_eval m)) =? 0 then []
  else match snd (fst (due_eval m)) with
       | pcp_state_failed => [failed_line]
       | pcp_state_succeeded => reported_lines (entries (fst (due_info m)))
       | _ => []
       end.
Proof.
  unfold transition_report.
  destruct (fst (fst (due_eval m)) =? 0); [reflexivity|].
  destruct (snd (fst (due_eval m))); try reflexivity.
  change (Obs.log_lines (info_report (fst (due_info m))) =
          reported_lines (entries (fst (due_info m)))).
  destruct (fst (due_info m)) as [infos|]; cbn [info_report entries]; [|reflexivity].
  now rewrite ObsFacts.log_lines_app, log_lines_map_EvLog, log_lines_report_tail,
    app_nil_r.
Qed.

Lemma is_due_false m : not_due m -> is_due m = false.
Proof.
  unfold not_due, is_due, due_clock. intros [H | H].
  - now rewrite H.
  - apply Z.gtb_gt in H. rewrite H. apply andb_false_r.
Qed.

Lemma is_due_true m :
  PF_initted (pf m) = true ->
  (PF_wait_timestamp (pf m) >? fst (due_clock m)) = false ->
  is_due m = true.
Proof. unfold is_due. intros -> ->. reflexivity. Qed.

(** Within one operation: as many "Mapping failed!" lines as reported
    changes to [pcp_state_failed], as many [pcp_flow_get_info] queries as
    reported changes to [pcp_state_succeeded]. *)
Lemma op_reports_match op m :
  let evs := events (run_op op m) in
  Obs.count_line failed_line evs =
    Obs.count (Obs.is_transition_to pcp_state_failed) evs /\
  Obs.count Obs.is_get_info evs =
    Obs.count (Obs.is_transition_to pcp_state_succeeded) evs.
Proof.
  destruct op; cbn [run_op].
  - unfold multi_port_forward_init, PF_log_init, PF_get_addr.
    rewrite ?close_run. run_code. unfold failed_line.
    split_branches; split; reflexivity.
  - destruct (due_or_not m) as [H | [Hi Hd]].
    + destruct (do_idle_run m H) as (-> & _).
      destruct (PF_initted (pf m)); split; reflexivity.
    + destruct (do_due_run m Hi Hd) as (-> & _).
      rewrite ObsFacts.count_line_app, !ObsFacts.count_app.
      unfold transition_report.
      destruct (info_report_counts (fst (due_info m))) as (I1 & I2 & I3 & I4).
      unfold Obs.count_line, Obs.count, Obs.log_lines in *.
      destruct (fst (fst (due_eval m)) =? 0) eqn:Hz;
        cbn -[String.eqb failed_line]; rewrite ?Hz; [split; reflexivity|].
      destruct (snd (fst (due_eval m)));
        cbn -[String.eqb failed_line info_report];
        try (split; reflexivity).
      rewrite I1, I2, I3, I4. split; reflexivity.
  - rewrite close_run. unfold failed_line.
    destruct (PF_initted (pf m)); [|split; reflexivity].
    destruct (PF_pcp_flow (pf m)); split; reflexivity.
Qed.

(** C2.  Terminal states are reported once per transition the engine
    announces, never per tick.  Over any history of the public
    operations, the number of "Mapping failed!" lines equals the number
    of [pcp_eval_flow_state] answers that announced a change to the
    failed state, and the number of success reports (queries of the
    mapping info) equals the number of announced changes to the succeeded
    state.  Within one call of [multi_port_forward_do]: a call that gets
    past the gate asks the engine for the flow state, once, and what it
    logs is decided by that answer: the single line "Mapping failed!" for
    an announced change to failed, the report of the mapping for an
    announced change to succeeded, nothing when no change is announced or
    the state is another; a call turned away at the gate neither asks nor
    logs. *)
Theorem terminal_report_once_per_transition (ops : list Op) m :
  let evs := events (run_ops ops m) in
  let tick := events (multi_port_forward_do m) in
  let answer := fst (due_eval m) in
  Obs.count_line failed_line evs =
    Obs.count (Obs.is_transition_to pcp_state_failed) evs /\
  Obs.count Obs.is_get_info evs =
    Obs.count (Obs.is_transition_to pcp_state_succeeded) evs /\
  filter Obs.is_eval tick =
    (if is_due m
     then [EvEvalFlowState (PF_pcp_flow (pf m)) (fst answer) (snd answer)]
     else []) /\
  Obs.log_lines tick =
    (if is_due m && negb (fst answer =? 0) then
       match snd answer with
       | pcp_state_failed => [failed_line]
       | pcp_state_succeeded => reported_lines (entries (fst (due_info m)))
       | _ => []
       end
     else []).
Proof.
  cbn zeta. split; [|split; [|split]].
  - revert m. induction ops as [|op ops IH]; intros m; [reflexivity|].
    destruct (alive m) eqn:A; [|now rewrite (run_ops_dead _ _ A)].
    rewrite (run_ops_cons_events _ _ _ A), ObsFacts.count_line_app,
      ObsFacts.count_app.
    rewrite IH. now destruct (op_reports_match op m) as [-> _].
  - revert m. induction ops as [|op ops IH]; intros m; [reflexivity|].
    destruct (alive m) eqn:A; [|now rewrite (run_ops_dead _ _ A)].
    rewrite (run_ops_cons_events _ _ _ A), !ObsFacts.count_app.
    rewrite IH. now destruct (op_reports_match op m) as [_ ->].
  - destruct (due_or_not m) as [H | [Hi Hd]].
    + destruct (do_idle_run m H) as (-> & _). rewrite (is_due_false m H).
      destruct (PF_initted (pf m)); reflexivity.
    + destruct (do_due_run m Hi Hd) as (-> & _). rewrite (is_due_true m Hi Hd).
      rewrite filter_app. cbn [filter Obs.is_eval app]. f_equal.
      apply length_zero_iff_nil.
      apply (transition_report_quiet Obs.is_eval); reflexivity.
  - destruct (due_or_not m) as [H | [Hi Hd]].
    + destruct (do_idle_run m H) as (-> & _). rewrite (is_due_false m H).
      destruct (PF_initted (pf m)); reflexivity.
    + destruct (do_due_run m Hi Hd) as (-> & _). rewrite (is_due_true m Hi Hd).
      rewrite ObsFacts.log_lines_app, transition_report_lines.
      cbn [Obs.log_lines flat_map app andb].
      destruct (fst (fst (due_eval m)) =? 0); reflexivity.
Qed.

(** *** The report of a succeeded mapping *)

Lemma valid_line_shape t : tm_wf t -> valid_until_MMDD_HHMMSS t.
Proof.
  intros Hwf. unfold valid_until_MMDD_HHMMSS, mapping_valid_line, time_str_of.
  destruct (TextFacts.strftime_mdHMS _ Hwf) as [-> Hshape].
  split; [reflexivity | exact Hshape].
Qed.

(** When every lease end converts, the loop logs the two lines of every
    entry and runs to its end. *)
Lemma reported_lines_complete infos :
  Forall converts_well infos ->
  reported_lines infos = flat_map complete_lines infos /\
  forallb converts infos = true.
Proof.
  induction 1 as [|i infos (t & Et & Hwf) _ [IH1 IH2]]; [split; reflexivity|].
  cbn [reported_lines flat_map forallb]. unfold converts at 1, complete_lines at 1.
  rewrite Et, IH1, IH2. cbn [Obs.is_some andb]. split; [|reflexivity].
  unfold info_lines, mapping_successful_line, lease_end_text.
  destruct (valid_line_shape t Hwf) as [-> _]. reflexivity.
Qed.

(** X19.  The report of a succeeded mapping when every lease end
    converts.  A due call of [multi_port_forward_do] to which the engine announces a
    change to succeeded asks for the mapping info and then logs, for each
    entry in order, one "Mapping successful" line (internal address and
    port, external address and port) and one "Mapping valid until" line
    with the lease end in the local time of [localtime] as MM/DD HH:MM:SS;
    a non-null info array is freed after the last line and the process
    goes on. *)
Theorem succeeded_report_is_complete m :
  PF_initted (pf m) = true ->
  (PF_wait_timestamp (pf m) >? fst (due_clock m)) = false ->
  fst (fst (due_eval m)) <> 0 ->
  snd (fst (due_eval m)) = pcp_state_succeeded ->
  Forall converts_well (entries (fst (due_info m))) ->
  let o := multi_port_forward_do m in
  events o =
    [EvTimer (fst (due_clock m));
     EvPulse (PF_pcp_ctx (pf m)) (fst (due_pulse m));
     EvTimer (fst (due_clock2 m));
     EvEvalFlowState (PF_pcp_flow (pf m)) (fst (fst (due_eval m)))
                     pcp_state_succeeded;
     EvFlowGetInfo (PF_pcp_flow (pf m)) (fst (due_info m))]
    ++ map EvLog (flat_map complete_lines (entries (fst (due_info m))))
    ++ match fst (due_info m) with Some _ => [EvFree] | None => [] end /\
  alive (after o) = alive m /\
  Forall (fun info =>
            exists t, Ext.localtime (recv_lifetime_end info) = Some t /\
                      Text.is_MMDD_HHMMSS (lease_end_text t) = true)
         (entries (fst (due_info m))).
Proof.
  intros Hi Hd Hr Hs Hc. cbn zeta.
  apply Z.eqb_neq in Hr.
  split; [|split].
  - destruct (do_due_run m Hi Hd) as (-> & _).
    unfold transition_report. rewrite Hr, Hs. cbn [app]. do 5 f_equal.
    destruct (fst (due_info m)) as [infos|]; cbn [info_report entries] in *;
      [|reflexivity].
    destruct (reported_lines_complete infos Hc) as [-> ->]. reflexivity.
  - unfold multi_port_forward_do.
    unfold due_info, due_eval, due_clock2, due_pulse, due_clock in *.
    run_code. rewrite Hi. cbn. rewrite Hd. cbn. rewrite Hr, Hs. cbn.
    destruct (fst (Ext.pcp_flow_get_info _ _)) as [infos|]; cbn [entries] in Hc;
      cbn; [|reflexivity].
    rewrite log_flow_info_run.
    destruct (reported_lines_complete infos Hc) as [_ ->]. reflexivity.
  - apply Forall_forall. intros info Hin.
    rewrite Forall_forall in Hc. destruct (Hc info Hin) as (t & Et & Hwf).
    exists t. split; [exact Et|].
    destruct (TextFacts.strftime_mdHMS t Hwf) as [_ Hshape]. exact Hshape.
Qed.

(** *** Scheduling *)

Lemma add_exact (a b : Z) :
  CInt.add a b = if CInt.representable (a + b) then a + b else CInt.wrap (a + b).
Proof.
  unfold CInt.representable, CInt.INT_MIN, CInt.INT_MAX, CInt.add, CInt.wrap.
  destruct (andb _ _) eqn:E; [|reflexivity].
  apply andb_prop in E. destruct E as [E1 E2].
  apply Z.leb_le in E1, E2. rewrite Z.mod_small; lia.
Qed.

(** [multi_port_forward_init] either makes no pulse, or ends with the
    pulse and the clock reading that give the new [PF_wait_timestamp]. *)
Lemma init_pulse_shape m :
  let o := multi_port_forward_init m in
  let evs := events o in
  (Obs.count Obs.is_pulse evs = 0%nat /\
   negb (PF_initted (pf m)) && PF_initted (pf (after o)) = false) \/
  (exists ctx wait_ms now,
      skipn (List.length evs - 2) evs = [EvPulse ctx wait_ms; EvTimer now] /\
      Obs.count Obs.is_pulse (firstn (List.length evs - 2) evs) = 0%nat /\
      PF_wait_timestamp (pf (after o)) = CInt.add now wait_ms /\
      negb (PF_initted (pf m)) && PF_initted (pf (after o)) = true).
Proof.
  unfold multi_port_forward_init, PF_log_init, PF_get_addr.
  rewrite ?close_run. run_code.
  split_branches;
    repeat match goal with
           | H : PF_initted (pf m) = _ |- _ => rewrite H
           end;
    first [ left; split; reflexivity
          | right; eexists _, _, _; repeat split; reflexivity ].
Qed.

Lemma split_last_two (evs : list Event) a b :
  skipn (List.length evs - 2) evs = [a; b] ->
  evs = firstn (List.length evs - 2) evs ++ [a; b] ++ [].
Proof. intros H. cbn. rewrite <- H. symmetry. apply firstn_skipn. Qed.

(** C4.  Every pulse of the engine is followed at once by a clock
    reading, and [PF_wait_timestamp] is left at that reading plus the
    wait hint the pulse returned: the addition is the one of [int], so
    the plain sum whenever that is a value of [int].  An operation pulses at most once:
    [multi_port_forward_init] exactly when it starts uninitialised and
    ends initialised, as its last engine call;
    [multi_port_forward_do] exactly when it is initialised and due;
    [multi_port_forward_close] never. *)
Theorem pulse_schedules_next_due (op : Op) m :
  let o := run_op op m in
  (Obs.count Obs.is_pulse (events o) = 0%nat \/
   exists pre ctx wait_ms now post,
     events o = pre ++ [EvPulse ctx wait_ms; EvTimer now] ++ post /\
     Obs.count Obs.is_pulse pre = 0%nat /\
     Obs.count Obs.is_pulse post = 0%nat /\
     PF_wait_timestamp (pf (after o)) = CInt.add now wait_ms /\
     PF_wait_timestamp (pf (after o)) =
       (if CInt.representable (now + wait_ms) then now + wait_ms
        else CInt.wrap (now + wait_ms))) /\
  Obs.count Obs.is_pulse (events o) =
    match op with
    | OpInit =>
        if negb (PF_initted (pf m)) && PF_initted (pf (after o))
        then 1%nat else 0%nat
    | OpDo =>
        if PF_initted (pf m) &&
           negb (PF_wait_timestamp (pf m) >? fst (due_clock m))
        then 1%nat else 0%nat
    | OpClose => 0%nat
    end.
Proof.
  destruct op; cbn [run_op]; cbn zeta.
  - destruct (init_pulse_shape m) as [(H0 & Hb) | (ctx & w & now & Hs & Hp & Ht & Hb)].
    + rewrite Hb. split; [left|]; exact H0.
    + rewrite Hb. apply split_last_two in Hs.
      assert (Hc : Obs.count Obs.is_pulse (events (multi_port_forward_init m)) = 1%nat).
      { rewrite Hs, ObsFacts.count_app, Hp. reflexivity. }
      split; [right | exact Hc].
      exists (firstn (List.length (events (multi_port_forward_init m)) - 2)
                     (events (multi_port_forward_init m))), ctx, w, now, [].
      repeat split; try assumption.
      rewrite Ht. apply add_exact.
  - destruct (due_or_not m) as [H | [Hi Hd]].
    + destruct (do_idle_run m H) as (E & _). rewrite E.
      assert (Hb : PF_initted (pf m) &&
                   negb (PF_wait_timestamp (pf m) >? fst (due_clock m)) = false).
      { destruct H as [H | H]; [now rewrite H|].
        apply Z.gtb_gt in H. unfold due_clock. rewrite H.
        now destruct (PF_initted (pf m)). }
      rewrite Hb. destruct (PF_initted (pf m)); (split; [left|]); reflexivity.
    + destruct (do_due_run m Hi Hd) as (E & Hpf & _). rewrite E, Hi, Hd.
      assert (Hrep : Obs.count Obs.is_pulse (transition_report m) = 0%nat)
        by (apply transition_report_quiet; reflexivity).
      split.
      * right.
        exists [EvTimer (fst (due_clock m))], (PF_pcp_ctx (pf m)),
               (fst (due_pulse m)), (fst (due_clock2 m)),
               (EvEvalFlowState (PF_pcp_flow (pf m)) (fst (fst (due_eval m)))
                                (snd (fst (due_eval m))) :: transition_report m).
        split; [reflexivity|]. split; [reflexivity|].
        split; [exact Hrep|]. rewrite Hpf. split; [reflexivity|].
        cbn. apply add_exact.
      * rewrite ObsFacts.count_app, Hrep. reflexivity.
  - rewrite close_run. split; [left|]; destruct (PF_initted (pf m)); reflexivity.
Qed.

(** *** What a call of [multi_port_forward_do] can emit *)

Lemma no_line_in_info_lines l infos :
  String.prefix successful_prefix l = false ->
  String.prefix valid_prefix l = false ->
  filter (String.eqb l) (reported_lines infos) = [].
Proof.
  intros H1 H2.
  assert (Hs : forall i, String.eqb l (mapping_successful_line i) = false).
  { intros i. destruct (String.eqb_spec l (mapping_successful_line i)) as [E | _];
      [|reflexivity].
    subst l. unfold mapping_successful_line, successful_prefix in H1.
    cbn in H1. destruct (Ext.inet_ntop_AF_INET6 (int_ip i)); discriminate. }
  assert (Hv : forall t, String.eqb l (mapping_valid_line t) = false).
  { intros t. destruct (String.eqb_spec l (mapping_valid_line t)) as [E | _];
      [|reflexivity].
    subst l. unfold mapping_valid_line, valid_prefix in H2.
    cbn in H2. destruct (time_str_of t); discriminate. }
  induction infos as [|i infos IH]; [reflexivity|].
  cbn [reported_lines].
  destruct (Ext.localtime (recv_lifetime_end i)) as [t|];
    cbn [info_lines app filter]; rewrite Hs; [|reflexivity].
  rewrite Hv. exact IH.
Qed.

Lemma transition_report_line l m :
  String.eqb l failed_line = false ->
  String.prefix successful_prefix l = false ->
  String.prefix valid_prefix l = false ->
  Obs.count_line l (transition_report m) = 0%nat.
Proof.
  intros H0 H1 H2. unfold Obs.count_line. rewrite transition_report_lines.
  destruct (fst (fst (due_eval m)) =? 0); [reflexivity|].
  destruct (snd (fst (due_eval m))); try reflexivity.
  - now rewrite no_line_in_info_lines.
  - cbn [filter]. rewrite H0. reflexivity.
Qed.

(** *** Invariants of the statics *)

Lemma no_bad_forallb evs :
  Obs.count ctx_arg_bad evs = 0%nat -> forallb Obs.ctx_arg_ok evs = true.
Proof.
  unfold Obs.count, ctx_arg_bad. induction evs as [|e evs IH]; [reflexivity|].
  cbn. destruct (Obs.ctx_arg_ok e); cbn; [exact IH | discriminate].
Qed.

Lemma init_step m :
  ctx_invariant (pf m) -> idle_is_clean (pf m) ->
  step_ok m (multi_port_forward_init m).
Proof.
  intros Hc Hi. destruct (PF_initted (pf m)) eqn:Hinit.
  - assert (E : multi_port_forward_init m = {| value := tt; after := m; events := [] |}).
    { unfold multi_port_forward_init. run_code. now rewrite Hinit. }
    rewrite E. constructor; cbn; auto.
  - specialize (Hi Hinit). destruct m as [cf s w a]. cbn in Hi. subst s.
    clear Hc Hinit.
    unfold multi_port_forward_init, PF_log_init, PF_get_addr.
    rewrite ?close_run. run_code. cbn.
    unfold removed_line, shutdown_line.
    split_branches;
      (constructor; cbn; unfold ctx_invariant, idle_is_clean; cbn; intros;
       first [reflexivity | congruence]).
Qed.

Lemma close_step m :
  ctx_invariant (pf m) -> idle_is_clean (pf m) ->
  step_ok m (multi_port_forward_close m).
Proof.
  intros Hc Hi. rewrite close_run. unfold removed_line, shutdown_line.
  destruct (PF_initted (pf m)) eqn:Hinit.
  - specialize (Hc Hinit).
    destruct (PF_pcp_ctx (pf m)) as [c|] eqn:Ec; [|congruence].
    destruct (PF_pcp_flow (pf m)); constructor; cbn; try reflexivity;
      unfold ctx_invariant, idle_is_clean; cbn; try congruence.
    all: rewrite Hinit; reflexivity.
  - constructor; cbn; auto.
Qed.

Lemma do_step m :
  ctx_invariant (pf m) -> idle_is_clean (pf m) ->
  step_ok m (multi_port_forward_do m).
Proof.
  intros Hc Hi. destruct (due_or_not m) as [H | [Hinit Hd]].
  - destruct (do_idle_run m H) as (E & Epf & Ecf).
    constructor; rewrite ?E, ?Epf; auto;
      destruct (PF_initted (pf m)); reflexivity.
  - destruct (do_due_run m Hinit Hd) as (E & Epf & Ecf).
    specialize (Hc Hinit).
    destruct (PF_pcp_ctx (pf m)) as [c|] eqn:Ec; [|congruence].
    constructor; rewrite ?E, ?Epf; auto.
    + unfold ctx_invariant. cbn. congruence.
    + unfold idle_is_clean. cbn. congruence.
    + rewrite ObsFacts.count_app, transition_report_quiet by reflexivity. reflexivity.
    + rewrite !ObsFacts.count_app, !transition_report_quiet by reflexivity.
      cbn. now rewrite Hinit.
    + rewrite !ObsFacts.count_line_app, ObsFacts.count_app.
      rewrite !transition_report_line, transition_report_quiet by reflexivity.
      reflexivity.
Qed.

Lemma op_step op m :
  ctx_invariant (pf m) -> idle_is_clean (pf m) -> step_ok m (run_op op m).
Proof.
  destruct op; cbn [run_op];
    [apply init_step | apply do_step | apply close_step].
Qed.

Lemma boot_invariants cf (w : W) :
  ctx_invariant (pf (boot cf w)) /\ idle_is_clean (pf (boot cf w)).
Proof. split; intro H; [discriminate | reflexivity]. Qed.

(** The same over a whole history. *)
Lemma history_step ops m :
  ctx_invariant (pf m) -> idle_is_clean (pf m) -> step_ok m (run_ops ops m).
Proof.
  revert m. induction ops as [|op ops IH]; intros m Hc Hi.
  - constructor; cbn; auto.
  - destruct (alive m) eqn:A;
      [|rewrite (run_ops_dead _ _ A); constructor; cbn; auto].
    destruct (op_step op m Hc Hi) as [A1 A2 A3 A4 A5 A6].
    destruct (IH _ A1 A2) as [B1 B2 B3 B4 B5 B6].
    constructor;
      rewrite ?(run_ops_cons_after _ _ _ A), ?(run_ops_cons_events _ _ _ A); auto.
    + congruence.
    + rewrite ObsFacts.count_app. lia.
    + rewrite !ObsFacts.count_app. lia.
    + rewrite !ObsFacts.count_line_app, ObsFacts.count_app. lia.
Qed.

(** *** Repeated initialisation *)

Lemma init_noop m :
  PF_initted (pf m) = true ->
  multi_port_forward_init m = {| value := tt; after := m; events := [] |}.
Proof. intros H. unfold multi_port_forward_init. run_code. now rewrite H. Qed.

Lemma init_counts m :
  let o := multi_port_forward_init m in
  Obs.count Obs.is_pcp_init (events o) = b2n (negb (PF_initted (pf m))) /\
  (PF_initted (pf (after o)) = true ->
   Obs.count Obs.is_new_flow (events o) = b2n (negb (PF_initted (pf m)))).
Proof.
  unfold multi_port_forward_init, PF_log_init, PF_get_addr. run_code.
  split_branches;
    repeat match goal with
           | H : PF_initted (pf m) = _ |- _ => rewrite H
           end;
    (split; [reflexivity | intros; first [reflexivity | discriminate]]).
Qed.

(** C5 (as amended).  Once a call of [multi_port_forward_init] has left
    the module initialised, a further call without a close in between
    returns at its first test: it produces no event at all, so no engine
    call, and leaves the machine as it was.  Over the two calls the
    engine is constructed once and one flow is requested (none at all
    when the first call already found the module initialised). *)
Theorem init_idempotent_once_initialized m :
  let o1 := multi_port_forward_init m in
  PF_initted (pf (after o1)) = true ->
  let o2 := multi_port_forward_init (after o1) in
  o2 = {| value := tt; after := after o1; events := [] |} /\
  Obs.count Obs.is_pcp_init (events o1 ++ events o2) =
    b2n (negb (PF_initted (pf m))) /\
  Obs.count Obs.is_new_flow (events o1 ++ events o2) =
    b2n (negb (PF_initted (pf m))).
Proof.
  cbn zeta. intros H. rewrite (init_noop _ H). cbn [events].
  rewrite app_nil_r. destruct (init_counts m) as [H1 H2].
  split; [reflexivity|]. split; [exact H1 | exact (H2 H)].
Qed.

(** *** Shutdown *)

(** C6.  [multi_port_forward_close] is safe in every state.  On a
    module that is not initialised it does nothing.  On an initialised
    one it terminates the engine context once, logs one line ("Mapping
    removed" with a flow, "Shutdown" without, as after a failed flow
    request) and resets the four statics to null, null, false and zero.
    A second call right after is a no-op.  Over any history from program
    start, every [pcp_terminate] is matched by an earlier successful
    [pcp_init] (so no context is released twice), the number of
    "removed"/"Shutdown" lines is the number of [pcp_terminate] calls, and
    a module that is not initialised has all statics at their initial
    values. *)
Theorem close_is_safe (history : list Op) (cf : Config) (w : W) m :
  let o1 := multi_port_forward_close m in
  let o2 := multi_port_forward_close (after o1) in
  let h := run_ops history (boot cf w) in
  events o1 =
    (if PF_initted (pf m) then
       [EvTerminate (PF_pcp_ctx (pf m)) 1;
        EvLog (match PF_pcp_flow (pf m) with
               | Some _ => removed_line
               | None => shutdown_line
               end)]
     else []) /\
  pf (after o1) = (if PF_initted (pf m) then PF_statics_init else pf m) /\
  o2 = {| value := tt; after := after o1; events := [] |} /\
  (Obs.count Obs.is_terminate (events h) + b2n (PF_initted (pf (after h))) =
   Obs.count Obs.is_constructed (events h))%nat /\
  (Obs.count_line removed_line (events h) +
   Obs.count_line shutdown_line (events h) =
   Obs.count Obs.is_terminate (events h))%nat /\
  idle_is_clean (pf (after h)).
Proof.
  cbn zeta. rewrite (close_run m).
  split; [|split; [|split; [|split; [|split]]]].
  - destruct (PF_initted (pf m)); reflexivity.
  - destruct (PF_initted (pf m)); reflexivity.
  - rewrite close_run.
    destruct (PF_initted (pf m)) eqn:Hi; cbn; [reflexivity | now rewrite Hi].
  - destruct (boot_invariants cf w) as [Hc Hi].
    destruct (history_step history _ Hc Hi) as [_ _ _ _ Hb _].
    cbn in Hb. lia.
  - destruct (boot_invariants cf w) as [Hc Hi].
    now destruct (history_step history _ Hc Hi).
  - destruct (boot_invariants cf w) as [Hc Hi].
    now destruct (history_step history _ Hc Hi).
Qed.

(** C10.  Over any history of the public operations from program
    start, an initialised module holds a non-null engine context, and no
    [pcp_pulse] or [pcp_terminate] call in the history was given a null
    context. *)
Theorem initted_implies_ctx (history : list Op) (cf : Config) (w : W) :
  let h := run_ops history (boot cf w) in
  ctx_invariant (pf (after h)) /\
  forallb Obs.ctx_arg_ok (events h) = true.
Proof.
  cbn zeta. destruct (boot_invariants cf w) as [Hc Hi].
  destruct (history_step history _ Hc Hi) as [H1 _ _ H4 _ _].
  split; [exact H1 | now apply no_bad_forallb].
Qed.

(** *** Address resolution inside [multi_port_forward_init] *)

(** Whatever [PF_get_addr] returns for the local address, the flow is
    requested as soon as the engine was constructed: the result of the
    lookup has no say. *)
Lemma local_resolution_result_is_ignored m :
  PF_initted (pf m) = false ->
  let o := multi_port_forward_init m in
  Obs.count Obs.is_new_flow (events o) = Obs.count Obs.is_constructed (events o).
Proof.
  intros Hi. unfold multi_port_forward_init, PF_log_init, PF_get_addr.
  run_code. rewrite Hi. cbn.
  split_branches; reflexivity.
Qed.

(** *** The gateway given on the command line *)

(** C7.  When a gateway host is given and [PF_get_addr] fails for it,
    [multi_port_forward_init] goes on: it constructs the engine, once,
    with automatic discovery enabled, registers no server with it, and
    requests the flow exactly when the engine was constructed. *)
Theorem gateway_resolution_failure_falls_back m host :
  PF_initted (pf m) = false ->
  Cmdline_gateway_ip (cfg m) = Some host ->
  fst (value (PF_get_addr (Some host) PCP_SERVER_PORT Indeterminate m)) = false ->
  let o := multi_port_forward_init m in
  Obs.count Obs.is_autodiscover_init (events o) = 1%nat /\
  Obs.count Obs.is_pcp_init (events o) = 1%nat /\
  Obs.count Obs.is_add_server (events o) = 0%nat /\
  Obs.count Obs.is_new_flow (events o) = Obs.count Obs.is_constructed (events o).
Proof.
  intros Hi Hg. unfold multi_port_forward_init, PF_log_init, PF_get_addr.
  run_code. rewrite Hi, Hg. cbn.
  split_branches; intros Hf; try discriminate; repeat split; reflexivity.
Qed.

(** *** Prefixes of the logged lines *)

Lemma info_lines_prefixed infos :
  filter (fun l => negb (String.prefix Obs.PF_prefix l))
         (reported_lines infos) = [].
Proof.
  induction infos as [|i infos IH]; [reflexivity|].
  cbn [reported_lines].
  destruct (Ext.localtime (recv_lifetime_end i)) as [t|];
    cbn [info_lines app filter];
    unfold mapping_successful_line, mapping_valid_line, Obs.PF_prefix in *;
    cbn; [exact IH | reflexivity].
Qed.

Lemma failed_resolutions_none evs :
  Obs.count Obs.is_getaddrinfo evs = 0%nat -> Obs.failed_resolutions evs = [].
Proof.
  unfold Obs.count, Obs.failed_resolutions.
  induction evs as [|e evs IH]; [reflexivity|].
  destruct e; cbn; try exact IH. discriminate.
Qed.

Lemma transition_report_prefixed m :
  Obs.unprefixed_lines (transition_report m) = [] /\
  Obs.failed_resolutions (transition_report m) = [].
Proof.
  split.
  - unfold Obs.unprefixed_lines. rewrite transition_report_lines.
    destruct (fst (fst (due_eval m)) =? 0); [reflexivity|].
    destruct (snd (fst (due_eval m))); try reflexivity.
    apply info_lines_prefixed.
  - apply failed_resolutions_none.
    apply transition_report_quiet; reflexivity.
Qed.

Lemma op_unprefixed op m :
  Obs.unprefixed_lines (events (run_op op m)) =
  map resolver_line (Obs.failed_resolutions (events (run_op op m))).
Proof.
  destruct op; cbn [run_op].
  - unfold multi_port_forward_init, PF_log_init, PF_get_addr. run_code.
    unfold resolver_line, Obs.unprefixed_lines, Obs.failed_resolutions,
      Obs.log_lines, Obs.PF_prefix.
    split_branches; first [reflexivity | congruence].
  - destruct (due_or_not m) as [H | [Hi Hd]].
    + destruct (do_idle_run m H) as (-> & _).
      destruct (PF_initted (pf m)); reflexivity.
    + destruct (do_due_run m Hi Hd) as (-> & _).
      rewrite ObsFacts.unprefixed_lines_app, ObsFacts.failed_resolutions_app.
      destruct (transition_report_prefixed m) as [-> ->]. reflexivity.
  - rewrite close_run. destruct (PF_initted (pf m)); [|reflexivity].
    destruct (PF_pcp_flow (pf m)); reflexivity.
Qed.

(** C9 (as amended).  Over any history of the public operations, the
    logged lines that do not begin with "Port forward => " are exactly
    the resolver's error lines, one per failed [getaddrinfo] call and in
    that order, each reading "PF_get_addr : getaddrinfo() => " followed
    by the resolver's error text; every other line of
    [multi_port_forward_init], [multi_port_forward_do] and
    [multi_port_forward_close] begins with the prefix.  So does every
    line the logging bridge [PF_logger_fn] writes for the engine. *)
Theorem log_lines_prefixed_but_resolver (history : list Op) m
        (lvl : pcp_loglvl_e) (msg : string) :
  let evs := events (run_ops history m) in
  Obs.unprefixed_lines evs = map resolver_line (Obs.failed_resolutions evs) /\
  forallb (fun l => String.prefix Obs.PF_prefix l ||
                    String.prefix "PF_get_addr : getaddrinfo() => " l)
          (Obs.log_lines evs) = true /\
  events (PF_logger_fn lvl msg m) = [EvLog (Obs.PF_prefix +++ msg)].
Proof.
  cbn zeta.
  assert (H : Obs.unprefixed_lines (events (run_ops history m)) =
              map resolver_line (Obs.failed_resolutions (events (run_ops history m)))).
  { revert m. induction history as [|op ops IH]; intros m; [reflexivity|].
    destruct (alive m) eqn:A; [|now rewrite (run_ops_dead _ _ A)].
    rewrite (run_ops_cons_events _ _ _ A), ObsFacts.unprefixed_lines_app,
      ObsFacts.failed_resolutions_app, map_app.
    now rewrite IH, op_unprefixed. }
  split; [exact H|]. split; [|reflexivity].
  apply forallb_forall. intros l Hl.
  destruct (String.prefix Obs.PF_prefix l) eqn:Hp; [reflexivity|].
  assert (Hu : In l (Obs.unprefixed_lines (events (run_ops history m)))).
  { unfold Obs.unprefixed_lines. apply filter_In. now rewrite Hp. }
  rewrite H in Hu. apply in_map_iff in Hu. destruct Hu as (r & <- & _).
  unfold resolver_line. cbn. now destruct (Ext.gai_strerror r).
Qed.

End Facts.

(* ------------------------------------------------------------------ *)
(** ** Concrete runs *)

(** A successful start with a gateway name that does not resolve, then two
    calls of the tick before the first due time. *)
Example run_init_then_idle :
  events (Sample.history_in Sample.good_flow [OpInit; OpDo; OpDo]
                            (Sample.start (Some "gw"))) =
  [EvGetAddrInfo (Some "gw") "5351" Sample.gateway_hints (-2) [];
   EvLog "PF_get_addr : getaddrinfo() => Name or service not known";
   EvLogLevel PCP_LOGLVL_NONE;
   EvPcpInit ENABLE_AUTODISCOVERY (Some 1%N);
   EvGetAddrInfo None "7808" Sample.passive_hints 0 [Sample.wildcard];
   EvFreeAddrInfo;
   EvNewFlow (Some 1%N) (Filled (repeat Byte.x00 28)) IPPROTO_UDP 7200 (Some 2%N);
   EvLog "Port forward => Initialized successfully";
   EvPulse (Some 1%N) 250; EvTimer 1000; EvTimer 1010; EvTimer 1020].
Proof. vm_compute. reflexivity. Qed.

(** A due tick that sees the mapping succeed, with two info entries. *)
Example run_due_tick_succeeded :
  events (Sample.do_in Sample.good_flow (Sample.running 0)) =
  [EvTimer 1000; EvPulse (Some 1%N) 250; EvTimer 1010;
   EvEvalFlowState (Some 2%N) 1 pcp_state_succeeded;
   EvFlowGetInfo (Some 2%N) (Some [Sample.info1; Sample.info1]);
   EvLog "Port forward => Mapping successful  [::1]:7808 <-> [::ffff:192.0.2.7]:7808";
   EvLog "Port forward => Mapping valid until 01/04 07:05:09";
   EvLog "Port forward => Mapping successful  [::1]:7808 <-> [::ffff:192.0.2.7]:7808";
   EvLog "Port forward => Mapping valid until 01/04 07:05:09";
   EvFree] /\
  PF_wait_timestamp (pf (after (Sample.do_in Sample.good_flow (Sample.running 0))))
  = 1260.
Proof. vm_compute. split; reflexivity. Qed.

(** The failed state is announced on the first due tick only. *)
Example run_failed_logged_once :
  Obs.log_lines
    (events (Sample.history_in Sample.failing_flow [OpDo; OpDo; OpDo; OpClose; OpClose]
                               (Sample.running 0))) =
  ["Port forward => Mapping failed!"; "Port forward => Mapping removed"].
Proof. vm_compute. reflexivity. Qed.

(** Witness for C1: a tick 4 seconds before the due time. *)
Lemma do_before_due_is_noop_witness :
  not_due (C := Sample.scripted Sample.good_flow) (Sample.running 5000) /\
  events (Sample.do_in Sample.good_flow (Sample.running 5000)) = [EvTimer 1000] /\
  pf (after (Sample.do_in Sample.good_flow (Sample.running 5000))) =
    pf (Sample.running 5000).
Proof.
  assert (H : not_due (C := Sample.scripted Sample.good_flow) (Sample.running 5000))
    by (right; vm_compute; reflexivity).
  split; [exact H|].
  destruct (do_before_due_is_noop (C := Sample.scripted Sample.good_flow) _ H)
    as (P1 & _ & P3 & _).
  split; [exact P3 | exact P1].
Defined.

(** C3, the code at the failing input.  The engine announces the change
    to succeeded and hands out two entries; the lease end of the first is
    a time [localtime] cannot convert.  The call logs the "Mapping
    successful" line of that entry and then dies in [strftime], which
    reads through the null pointer: no "Mapping valid until" line for it,
    nothing at all for the second entry, and the info array is never
    freed. *)
Lemma succeeded_report_dies_on_unconvertible_lease :
  Ext.localtime (Collaborators := Sample.scripted Sample.far_lease)
    (recv_lifetime_end Sample.info_far) = None /\
  events (Sample.do_in Sample.far_lease (Sample.running 0)) =
  [EvTimer 1000; EvPulse (Some 1%N) 250; EvTimer 1010;
   EvEvalFlowState (Some 2%N) 1 pcp_state_succeeded;
   EvFlowGetInfo (Some 2%N) (Some [Sample.info_far; Sample.info1]);
   EvLog "Port forward => Mapping successful  [::1]:7808 <-> [::ffff:192.0.2.7]:7808"] /\
  alive (after (Sample.do_in Sample.far_lease (Sample.running 0))) = false.
Proof. vm_compute. repeat split; reflexivity. Qed.

(** The due tick of [run_due_tick_succeeded] under
    [succeeded_report_is_complete]: both lease ends convert. *)
Lemma succeeded_report_is_complete_witness :
  alive (after (multi_port_forward_do (C := Sample.scripted Sample.good_flow)
                  (Sample.running 0))) = true /\
  Obs.log_lines
    (events (multi_port_forward_do (C := Sample.scripted Sample.good_flow)
               (Sample.running 0))) =
  ["Port forward => Mapping successful  [::1]:7808 <-> [::ffff:192.0.2.7]:7808";
   "Port forward => Mapping valid until 01/04 07:05:09";
   "Port forward => Mapping successful  [::1]:7808 <-> [::ffff:192.0.2.7]:7808";
   "Port forward => Mapping valid until 01/04 07:05:09"].
Proof.
  assert (Hw : converts_well (C := Sample.scripted Sample.good_flow) Sample.info1).
  { exists (Sample.clock_tm (recv_lifetime_end Sample.info1)).
    split; [reflexivity|]. unfold tm_wf. cbn. lia. }
  destruct (succeeded_report_is_complete (C := Sample.scripted Sample.good_flow)
              (Sample.running 0)) as (E & A & _).
  - reflexivity.
  - reflexivity.
  - vm_compute. discriminate.
  - reflexivity.
  - repeat constructor; exact Hw.
  - split; [exact A|]. rewrite E. vm_compute. reflexivity.
Defined.

(** Counterexample to C5 as stated: the engine cannot be constructed,
    so the first call leaves the module uninitialised without any
    shutdown, and the second call constructs again. *)
Lemma init_twice_after_failed_construction :
  Obs.count Obs.is_terminate
    (events (Sample.init_in Sample.no_engine (Sample.start None))) = 0%nat /\
  events (Sample.init_in Sample.no_engine
            (after (Sample.init_in Sample.no_engine (Sample.start None)))) =
    [EvLogLevel PCP_LOGLVL_NONE; EvPcpInit ENABLE_AUTODISCOVERY None;
     EvLog "Port forward => Initialization failed!"] /\
  Obs.count Obs.is_pcp_init
    (events (Sample.init_in Sample.no_engine (Sample.start None)) ++
     events (Sample.init_in Sample.no_engine
               (after (Sample.init_in Sample.no_engine (Sample.start None)))))
    = 2%nat /\
  ~ second_init_is_noop (C := Sample.scripted Sample.no_engine) (Sample.start None).
Proof.
  split; [vm_compute; reflexivity|].
  split; [vm_compute; reflexivity|].
  split; [vm_compute; reflexivity|].
  intros [_ H]. vm_compute in H. discriminate.
Qed.

(** Witness for C5 as amended: a start that succeeds, then a second call. *)
Lemma init_idempotent_once_initialized_witness :
  PF_initted
    (pf (after (multi_port_forward_init (C := Sample.scripted Sample.good_flow)
                  (Sample.start None)))) = true /\
  multi_port_forward_init (C := Sample.scripted Sample.good_flow)
    (after (multi_port_forward_init (C := Sample.scripted Sample.good_flow)
              (Sample.start None))) =
  {| value := tt;
     after := after (multi_port_forward_init (C := Sample.scripted Sample.good_flow)
                       (Sample.start None));
     events := [] |}.
Proof.
  assert (H : PF_initted
                (pf (after (multi_port_forward_init
                              (C := Sample.scripted Sample.good_flow)
                              (Sample.start None)))) = true)
    by (vm_compute; reflexivity).
  split; [exact H|].
  exact (proj1 (init_idempotent_once_initialized
                  (C := Sample.scripted Sample.good_flow) (Sample.start None) H)).
Defined.

(** Witness for C7: the gateway name "gw" does not resolve. *)
Lemma gateway_resolution_failure_falls_back_witness :
  PF_initted (pf (Sample.start (Some "gw"))) = false /\
  Cmdline_gateway_ip (cfg (Sample.start (Some "gw"))) = Some "gw" /\
  fst (value (PF_get_addr (C := Sample.scripted Sample.good_flow)
                (Some "gw") PCP_SERVER_PORT Indeterminate
                (Sample.start (Some "gw")))) = false /\
  Obs.count Obs.is_autodiscover_init
    (events (Sample.init_in Sample.good_flow (Sample.start (Some "gw")))) = 1%nat /\
  Obs.count Obs.is_add_server
    (events (Sample.init_in Sample.good_flow (Sample.start (Some "gw")))) = 0%nat.
Proof.
  assert (H1 : PF_initted (pf (Sample.start (Some "gw"))) = false) by reflexivity.
  assert (H2 : Cmdline_gateway_ip (cfg (Sample.start (Some "gw"))) = Some "gw")
    by reflexivity.
  assert (H3 : fst (value (PF_get_addr (C := Sample.scripted Sample.good_flow)
                             (Some "gw") PCP_SERVER_PORT Indeterminate
                             (Sample.start (Some "gw")))) = false)
    by (vm_compute; reflexivity).
  split; [exact H1|]. split; [exact H2|]. split; [exact H3|].
  destruct (gateway_resolution_failure_falls_back
              (C := Sample.scripted Sample.good_flow) _ _ H1 H2 H3)
    as (P1 & _ & P3 & _).
  split; [exact P1 | exact P3].
Defined.

(** C8, the code at the failing input.  No gateway is configured and the
    lookup of the local wildcard address fails.  The result of
    [PF_get_addr] is not looked at: the flow is requested all the same,
    with [local_addr] as it was declared (never written), and the module
    ends up initialised. *)
Lemma init_requests_flow_with_unresolved_local_address :
  events (Sample.init_in Sample.no_resolver (Sample.start None)) =
  [EvLogLevel PCP_LOGLVL_NONE;
   EvPcpInit ENABLE_AUTODISCOVERY (Some 1%N);
   EvGetAddrInfo None "7808" Sample.passive_hints (-3) [];
   EvLog "PF_get_addr : getaddrinfo() => Temporary failure in name resolution";
   EvNewFlow (Some 1%N) Indeterminate IPPROTO_UDP 7200 (Some 2%N);
   EvLog "Port forward => Initialized successfully";
   EvPulse (Some 1%N) 250; EvTimer 1000] /\
  fst (value (PF_get_addr (C := Sample.scripted Sample.no_resolver) None 7808
                Indeterminate (Sample.start None))) = false /\
  PF_initted (pf (after (Sample.init_in Sample.no_resolver (Sample.start None))))
  = true.
Proof. vm_compute. repeat split; reflexivity. Qed.

(** Counterexample to C9 as stated: the line logged when the gateway name
    does not resolve starts with the name of the helper, not with the
    prefix. *)
Lemma resolver_error_line_lacks_prefix :
  Obs.log_lines (events (Sample.init_in Sample.good_flow (Sample.start (Some "gw")))) =
    ["PF_get_addr : getaddrinfo() => Name or service not known";
     "Port forward => Initialized successfully"] /\
  ~ Forall (fun l => String.prefix "Port forward => " l = true)
      (Obs.log_lines
         (events (Sample.init_in Sample.good_flow (Sample.start (Some "gw"))))).
Proof.
  split; [vm_compute; reflexivity|].
  intros H. vm_compute in H. inversion H as [|l ls Hl _]. discriminate.
Qed.

(* ------------------------------------------------------------------ *)
(** ** Beyond the claims: the resolver helper *)

Section ResolverFacts.

Context {W : Type} {C : Ext.Collaborators W}.

Implicit Types (m : Machine W) (host : option string) (addr : sockaddr_storage).

(** [PF_get_addr] in one equation. *)
Lemma PF_get_addr_run host port addr m :
  PF_get_addr host port addr m =
  {| value := if negb (lookup_rval host port m =? 0) then (false, addr)
              else PF_get_addr_scan (lookup_list host port m) false addr;
     after := {| cfg := cfg m; pf := pf m; world := snd (lookup host port m);
                 alive := alive m |};
     events :=
       EvGetAddrInfo host (Text.dec (CInt.to_uint16 port)) (PF_hints host)
                     (lookup_rval host port m) (lookup_list host port m)
       :: (if negb (lookup_rval host port m =? 0)
           then [EvLog (resolver_line (lookup_rval host port m))]
           else [EvFreeAddrInfo]) |}.
Proof.
  unfold PF_get_addr, lookup_rval, lookup_list, lookup, PF_hints, resolver_line.
  run_code.
  destruct (negb (fst (fst _) =? 0)); reflexivity.
Qed.

(** Without an acceptable node the loop changes nothing. *)
Lemma scan_none srv success addr :
  existsb usable srv = false ->
  PF_get_addr_scan srv success addr = (success, addr).
Proof.
  induction srv as [|a srv IH]; intros H; [reflexivity|].
  cbn in H. apply orb_false_elim in H. destruct H as [Ha Hs].
  cbn [PF_get_addr_scan]. unfold usable in Ha. rewrite Ha. now apply IH.
Qed.

(** The loop stops at the first acceptable node. *)
Lemma scan_first skipped a rest success addr :
  existsb usable skipped = false ->
  usable a = true ->
  PF_get_addr_scan (skipped ++ a :: rest) success addr =
  (true, Filled (firstn (copied_size a) (ai_addr a))).
Proof.
  induction skipped as [|b skipped IH]; intros Hs Ha.
  - cbn [app PF_get_addr_scan]. unfold usable in Ha. rewrite Ha. reflexivity.
  - cbn in Hs. apply orb_false_elim in Hs. destruct Hs as [Hb Hs].
    cbn [app PF_get_addr_scan]. unfold usable in Hb. rewrite Hb. now apply IH.
Qed.

Lemma scan_success srv addr :
  fst (PF_get_addr_scan srv false addr) = existsb usable srv.
Proof.
  induction srv as [|a srv IH]; [reflexivity|].
  cbn [PF_get_addr_scan existsb]. fold (usable a).
  destruct (usable a); [reflexivity | exact IH].
Qed.

Lemma scan_bound srv success addr bs :
  existsb usable srv = true ->
  snd (PF_get_addr_scan srv success addr) = Filled bs ->
  (List.length bs <= sizeof_sockaddr_in6)%nat.
Proof.
  induction srv as [|a srv IH]; intros H E; [discriminate|].
  cbn [PF_get_addr_scan] in E. cbn [existsb] in H. fold (usable a) in E.
  destruct (usable a); cbn in H.
  - cbn in E. injection E as <-. rewrite length_firstn.
    destruct (is_inet6 (ai_family a)); unfold sizeof_sockaddr_in6, sizeof_sockaddr_in; lia.
  - now apply IH.
Qed.

(** X1.  [PF_get_addr] returns true exactly when [getaddrinfo] returned 0
    and its list has a node of family [AF_INET] or [AF_INET6]. *)
Theorem PF_get_addr_succeeds_iff host port addr m :
  fst (value (PF_get_addr host port addr m)) =
  (lookup_rval host port m =? 0) && existsb usable (lookup_list host port m).
Proof.
  rewrite PF_get_addr_run. cbn [value].
  destruct (lookup_rval host port m =? 0); cbn; [apply scan_success | reflexivity].
Qed.

(** X2.  On success the buffer holds the address of the first node of
    family [AF_INET] or [AF_INET6], in list order and whatever comes after:
    its first 28 bytes for [AF_INET6], its first 16 for [AF_INET]. *)
Theorem PF_get_addr_takes_first_match host port addr m skipped a rest :
  lookup_rval host port m = 0 ->
  lookup_list host port m = skipped ++ a :: rest ->
  existsb usable skipped = false ->
  usable a = true ->
  value (PF_get_addr host port addr m) =
  (true, Filled (firstn (if is_inet6 (ai_family a) then 28 else 16)%nat (ai_addr a))).
Proof.
  intros Hr Hl Hs Ha. rewrite PF_get_addr_run. cbn [value].
  rewrite Hr, Hl. cbn [Z.eqb negb]. now rewrite scan_first.
Qed.

(** X3.  No call of [PF_get_addr] touches the statics or the
    configuration (nor can it bring the process down), whether it succeeds
    or fails; and a call that returns false leaves the caller's buffer as
    it was. *)
Theorem PF_get_addr_failure_keeps_buffer host port addr m :
  pf (after (PF_get_addr host port addr m)) = pf m /\
  cfg (after (PF_get_addr host port addr m)) = cfg m /\
  alive (after (PF_get_addr host port addr m)) = alive m /\
  (fst (value (PF_get_addr host port addr m)) = false ->
   snd (value (PF_get_addr host port addr m)) = addr).
Proof.
  rewrite PF_get_addr_run. cbn [value after pf cfg alive].
  split; [reflexivity|]. split; [reflexivity|]. split; [reflexivity|].
  intros H.
  destruct (negb (lookup_rval host port m =? 0)); [reflexivity|].
  rewrite scan_success in H. now rewrite scan_none.
Qed.

(** X4.  [PF_get_addr] asks the resolver once and never again.  It frees
    the result list exactly when the lookup returned 0 and logs (one line,
    the resolver's error text) exactly when it did not; so a lookup that
    returns 0 without any [AF_INET]/[AF_INET6] node fails without a log
    line. *)
Theorem PF_get_addr_one_lookup host port addr m :
  let evs := events (PF_get_addr host port addr m) in
  Obs.count Obs.is_getaddrinfo evs = 1%nat /\
  Obs.count Obs.is_freeaddrinfo evs = b2n (lookup_rval host port m =? 0) /\
  Obs.log_lines evs =
    (if lookup_rval host port m =? 0 then []
     else [resolver_line (lookup_rval host port m)]) /\
  forallb Obs.lookup_args_ok evs = true /\
  Obs.count Obs.is_engine_call evs = 0%nat.
Proof.
  cbn zeta. rewrite PF_get_addr_run. cbn [events].
  destruct host; destruct (lookup_rval _ port m =? 0); cbn; repeat split; reflexivity.
Qed.

(** X5.  What [PF_get_addr] writes fits any socket address structure: on
    success the buffer holds at most [sizeof(struct sockaddr_in6)] = 28
    bytes. *)
Theorem PF_get_addr_copy_bounded host port addr m :
  fst (value (PF_get_addr host port addr m)) = true ->
  exists bs, snd (value (PF_get_addr host port addr m)) = Filled bs /\
             (List.length bs <= 28)%nat.
Proof.
  rewrite PF_get_addr_run. cbn [value]. intros H.
  destruct (negb (lookup_rval host port m =? 0)); [discriminate|].
  rewrite scan_success in H.
  destruct (PF_get_addr_scan (lookup_list host port m) false addr) as [ok buf] eqn:E.
  cbn [snd].
  assert (Hb := scan_bound (lookup_list host port m) false addr).
  rewrite E in Hb. cbn [snd] in Hb.
  destruct buf as [|bs].
  - exfalso. clear Hb. revert E H.
    induction (lookup_list host port m) as [|a srv IH]; [discriminate|].
    cbn [PF_get_addr_scan existsb]. fold (usable a).
    destruct (usable a); cbn; [discriminate | exact IH].
  - exists bs. split; [reflexivity|]. now apply Hb.
Qed.

(** A successful scan has written the buffer. *)
Lemma scan_filled srv success addr :
  existsb usable srv = true ->
  Obs.is_filled (snd (PF_get_addr_scan srv success addr)) = true.
Proof.
  induction srv as [|a srv IH]; intros H; [discriminate|].
  cbn [PF_get_addr_scan]. cbn [existsb] in H. fold (usable a).
  destruct (usable a); [reflexivity | now apply IH].
Qed.

Lemma scan_true_filled srv addr :
  fst (PF_get_addr_scan srv false addr) = true ->
  Obs.is_filled (snd (PF_get_addr_scan srv false addr)) = true.
Proof. rewrite scan_success. apply scan_filled. Qed.

End ResolverFacts.

(* ------------------------------------------------------------------ *)
(** ** Beyond the claims: the paths through initialisation *)

Section InitFacts.

Context {W : Type} {C : Ext.Collaborators W}.

Implicit Types (m : Machine W).

(** X6.  When the engine cannot be constructed ([pcp_init] answers null),
    [multi_port_forward_init] logs "Initialization failed!" and stops: the
    module stays uninitialised, the only static written is the (null)
    context, and no server is added, no flow requested, nothing pulsed and
    nothing terminated. *)
Theorem init_construction_failure_stops m :
  PF_initted (pf m) = false ->
  Obs.count Obs.is_constructed (events (multi_port_forward_init m)) = 0%nat ->
  let o := multi_port_forward_init m in
  pf (after o) = with_ctx None (pf m) /\
  cfg (after o) = cfg m /\
  Obs.count Obs.is_init_failed (events o) = 1%nat /\
  last (Obs.log_lines (events o)) EmptyString = init_failed_line /\
  Obs.count Obs.is_add_server (events o) = 0%nat /\
  Obs.count Obs.is_new_flow (events o) = 0%nat /\
  Obs.count Obs.is_pulse (events o) = 0%nat /\
  Obs.count Obs.is_terminate (events o) = 0%nat.
Proof.
  intros Hi. cbn zeta. run_init. rewrite Hi. cbn.
  split_branches; intros H; try discriminate; repeat split; reflexivity.
Qed.

(** The tail of a run whose flow request was refused. *)
Lemma init_flow_failure_shape m :
  PF_initted (pf m) = false ->
  let o := multi_port_forward_init m in
  let evs := events o in
  Obs.count Obs.is_flow_refused evs = 1%nat ->
  pf (after o) = PF_statics_init /\
  Obs.count Obs.is_pulse evs = 0%nat /\
  Obs.count Obs.is_constructed evs = 1%nat /\
  Obs.count Obs.is_terminate evs = 1%nat /\
  exists mode c src,
    skipn (List.length evs - 4) evs =
      [EvNewFlow (Some c) src IPPROTO_UDP PF_lifetime None;
       EvLog flow_failed_line; EvTerminate (Some c) 1; EvLog shutdown_line] /\
    In (EvPcpInit mode (Some c)) (firstn (List.length evs - 4) evs).
Proof.
  intros Hi. cbn zeta. run_init. rewrite Hi. cbn.
  split_branches; intros H; try discriminate;
    (split; [reflexivity|]); (split; [reflexivity|]);
    (split; [reflexivity|]); (split; [reflexivity|]);
    eexists _, _, _; (split; [reflexivity|]);
    cbn; repeat (first [left; reflexivity | right]).
Qed.

(** X7.  When the flow request is refused, [multi_port_forward_init]
    unwinds completely: it logs "Failed to init mapping!", terminates the
    very context it constructed, once, logs "Shutdown", and leaves all four
    statics at their initial values; it does not pulse. *)
Theorem init_flow_failure_unwinds m :
  PF_initted (pf m) = false ->
  Obs.count Obs.is_flow_refused (events (multi_port_forward_init m)) = 1%nat ->
  let o := multi_port_forward_init m in
  pf (after o) = PF_statics_init /\
  Obs.count Obs.is_pulse (events o) = 0%nat /\
  Obs.count Obs.is_constructed (events o) = 1%nat /\
  Obs.count Obs.is_terminate (events o) = 1%nat /\
  exists pre mode c src,
    events o =
      pre ++ [EvNewFlow (Some c) src IPPROTO_UDP PF_lifetime None;
              EvLog flow_failed_line; EvTerminate (Some c) 1; EvLog shutdown_line] /\
    In (EvPcpInit mode (Some c)) pre.
Proof.
  intros Hi Hf. cbn zeta.
  destruct (init_flow_failure_shape m Hi Hf)
    as (H1 & H2 & H3 & H4 & mode & c & src & Hs & Hin).
  repeat (split; [assumption|]).
  exists (firstn (List.length (events (multi_port_forward_init m)) - 4)
                 (events (multi_port_forward_init m))), mode, c, src.
  split; [|exact Hin]. rewrite <- Hs. symmetry. apply firstn_skipn.
Qed.

(** X8.  With a gateway name that resolves, [multi_port_forward_init]
    constructs the engine once with automatic discovery disabled and, when
    that succeeds, adds the server once: on the new context, with the
    address [PF_get_addr] wrote, at version 2, and before the flow is
    requested. *)
Theorem init_manual_gateway m host :
  PF_initted (pf m) = false ->
  Cmdline_gateway_ip (cfg m) = Some host ->
  fst (value (PF_get_addr (Some host) PCP_SERVER_PORT Indeterminate m)) = true ->
  let o := multi_port_forward_init m in
  Obs.count Obs.is_pcp_init (events o) = 1%nat /\
  Obs.count Obs.is_autodiscover_init (events o) = 0%nat /\
  Obs.count Obs.is_add_server (events o) = Obs.count Obs.is_constructed (events o) /\
  Obs.count Obs.is_add_server (Obs.before Obs.is_new_flow (events o)) =
    Obs.count Obs.is_constructed (events o) /\
  Forall (fun e => match e with
                   | EvAddServer ctx server version =>
                       ctx <> None /\
                       server = snd (value (PF_get_addr (Some host) PCP_SERVER_PORT
                                                        Indeterminate m)) /\
                       version = 2
                   | _ => True
                   end) (events o).
Proof.
  intros Hi Hg. cbn zeta. run_init. rewrite Hi, Hg. cbn.
  split_branches; intros Hf; try discriminate;
    (split; [reflexivity|]); (split; [reflexivity|]);
    (split; [reflexivity|]); (split; [reflexivity|]);
    repeat constructor; congruence.
Qed.

(** X9.  [multi_port_forward_init] sets up the engine's logging before it
    constructs the engine, as the comment at the call demands: the log
    level is set once, ahead of the one [pcp_init] call ([NONE] in an
    [NDEBUG] build, [INFO] otherwise), and the callback is registered, also
    ahead of it, exactly in builds without [NDEBUG]. *)
Theorem init_sets_up_logging_first m :
  PF_initted (pf m) = false ->
  let evs := events (multi_port_forward_init m) in
  Obs.count Obs.is_pcp_init evs = 1%nat /\
  Obs.count Obs.is_log_level evs = 1%nat /\
  Obs.count Obs.is_log_level (Obs.before Obs.is_pcp_init evs) = 1%nat /\
  In (EvLogLevel (if NDEBUG (cfg m) then PCP_LOGLVL_NONE else PCP_LOGLVL_INFO))
     (Obs.before Obs.is_pcp_init evs) /\
  Obs.count Obs.is_set_loggerfn evs = b2n (negb (NDEBUG (cfg m))) /\
  Obs.count Obs.is_set_loggerfn (Obs.before Obs.is_pcp_init evs) =
    b2n (negb (NDEBUG (cfg m))).
Proof.
  intros Hi. cbn zeta. run_init. rewrite Hi. cbn.
  split_branches;
    (split; [reflexivity|]); (split; [reflexivity|]); (split; [reflexivity|]);
    (split; [cbn; repeat (first [left; reflexivity | right])|]);
    split; reflexivity.
Qed.

End InitFacts.

(* ------------------------------------------------------------------ *)
(** ** Beyond the claims: the tick *)

Section TickFacts.

Context {W : Type} {C : Ext.Collaborators W}.

Implicit Types (m : Machine W).

(** When a call of [multi_port_forward_do] pulses. *)
Lemma do_pulse_count m :
  Obs.count Obs.is_pulse (events (multi_port_forward_do m)) =
  if PF_initted (pf m) && negb (PF_wait_timestamp (pf m) >? next_clock m)
  then 1%nat else 0%nat.
Proof.
  unfold next_clock. destruct (due_or_not m) as [H | [Hi Hd]].
  - destruct (do_idle_run m H) as (E & _). rewrite E.
    destruct H as [H | H].
    + rewrite H. reflexivity.
    + apply Z.gtb_gt in H. rewrite H, andb_false_r.
      now destruct (PF_initted (pf m)).
  - destruct (do_due_run m Hi Hd) as (E & _). rewrite E.
    unfold due_clock in Hd. rewrite Hi, Hd.
    rewrite ObsFacts.count_app, transition_report_quiet by reflexivity.
    reflexivity.
Qed.

Lemma transition_report_forallb (q : Event -> bool) m :
  (forall l, q (EvLog l) = true) ->
  q EvFree = true ->
  q (EvFlowGetInfo (PF_pcp_flow (pf m)) (fst (due_info m))) = true ->
  forallb q (transition_report m) = true.
Proof.
  intros Hl Hf Hg. unfold transition_report.
  destruct (fst (fst (due_eval m)) =? 0); [reflexivity|].
  destruct (snd (fst (due_eval m))); try reflexivity.
  - cbn [forallb]. rewrite Hg. cbn [andb].
    destruct (fst (due_info m)) as [infos|]; cbn [info_report]; [|reflexivity].
    rewrite forallb_app. apply andb_true_intro. split.
    + apply forallb_forall. intros e He. apply in_map_iff in He.
      destruct He as (l & <- & _). apply Hl.
    + destruct (forallb converts infos); cbn; [now rewrite Hf | reflexivity].
  - cbn. now rewrite Hl.
Qed.

(** X10.  [multi_port_forward_do] only ever reschedules: it leaves the
    initialised flag, both handles and the configuration as they were, and
    makes no lookup and no [pcp_init], [pcp_add_server], [pcp_new_flow] or
    [pcp_terminate] call; it reads the clock at most twice. *)
Theorem do_only_reschedules m :
  let o := multi_port_forward_do m in
  PF_initted (pf (after o)) = PF_initted (pf m) /\
  PF_pcp_ctx (pf (after o)) = PF_pcp_ctx (pf m) /\
  PF_pcp_flow (pf (after o)) = PF_pcp_flow (pf m) /\
  cfg (after o) = cfg m /\
  Obs.count Obs.is_getaddrinfo (events o) = 0%nat /\
  Obs.count Obs.is_pcp_init (events o) = 0%nat /\
  Obs.count Obs.is_add_server (events o) = 0%nat /\
  Obs.count Obs.is_new_flow (events o) = 0%nat /\
  Obs.count Obs.is_terminate (events o) = 0%nat /\
  (Obs.count Obs.is_timer (events o) <= 2)%nat.
Proof.
  cbn zeta. destruct (due_or_not m) as [H | [Hi Hd]].
  - destruct (do_idle_run m H) as (E & Epf & Ecf). rewrite E, Epf, Ecf.
    destruct (PF_initted (pf m)); cbn; repeat split; lia.
  - destruct (do_due_run m Hi Hd) as (E & Epf & Ecf). rewrite E, Epf, Ecf.
    rewrite !ObsFacts.count_app, !transition_report_quiet by reflexivity.
    cbn. repeat split; lia.
Qed.

(** X11.  After a due call of [multi_port_forward_do], the next call
    pulses exactly when its clock reading has reached the reading taken
    after the pulse plus the wait hint that pulse returned ([int]
    addition); before that it is turned away. *)
Theorem do_next_pulse_waits_for_hint m :
  PF_initted (pf m) = true ->
  (PF_wait_timestamp (pf m) >? fst (due_clock m)) = false ->
  let m' := after (multi_port_forward_do m) in
  Obs.count Obs.is_pulse (events (multi_port_forward_do m')) =
  if CInt.add (fst (due_clock2 m)) (fst (due_pulse m)) >? next_clock m'
  then 0%nat else 1%nat.
Proof.
  intros Hi Hd. cbn zeta. rewrite do_pulse_count.
  destruct (do_due_run m Hi Hd) as (_ & Epf & _). rewrite Epf.
  cbn [with_wait_timestamp PF_initted PF_wait_timestamp].
  rewrite Hi. cbn [andb]. destruct (CInt.add _ _ >? _); reflexivity.
Qed.

(** X12.  A wait hint that is zero or negative is taken as it is: if the
    sum is a value of [int] and the clock does not run backwards, the very
    next call of [multi_port_forward_do] pulses again. *)
Theorem do_nonpositive_hint_pulses_again m :
  PF_initted (pf m) = true ->
  (PF_wait_timestamp (pf m) >? fst (due_clock m)) = false ->
  fst (due_pulse m) <= 0 ->
  CInt.representable (fst (due_clock2 m) + fst (due_pulse m)) = true ->
  fst (due_clock2 m) <= next_clock (after (multi_port_forward_do m)) ->
  Obs.count Obs.is_pulse
    (events (multi_port_forward_do (after (multi_port_forward_do m)))) = 1%nat.
Proof.
  intros Hi Hd Hw Hr Hc. rewrite do_pulse_count.
  destruct (do_due_run m Hi Hd) as (_ & Epf & _). rewrite Epf.
  cbn [with_wait_timestamp PF_initted PF_wait_timestamp].
  rewrite Hi, add_exact, Hr. cbn [andb].
  destruct (fst (due_clock2 m) + fst (due_pulse m) >? _) eqn:E; [|reflexivity].
  apply Z.gtb_gt in E. lia.
Qed.

(** X13.  After a call of [multi_port_forward_init] that leaves the module
    initialised, the run ends with the first pulse and a clock reading, and
    the first call of [multi_port_forward_do] pulses exactly when its own
    clock reading has reached that reading plus the returned hint. *)
Theorem init_first_tick_waits_for_hint m :
  PF_initted (pf m) = false ->
  PF_initted (pf (after (multi_port_forward_init m))) = true ->
  let o := multi_port_forward_init m in
  exists pre ctx wait_ms now,
    events o = pre ++ [EvPulse ctx wait_ms; EvTimer now] /\
    Obs.count Obs.is_pulse
      (events (multi_port_forward_do (after o))) =
    if CInt.add now wait_ms >? next_clock (after o) then 0%nat else 1%nat.
Proof.
  intros Hi Ha. cbn zeta.
  destruct (init_pulse_shape m) as [(_ & Hb) | (ctx & w & now & Hs & _ & Ht & _)].
  { rewrite Hi, Ha in Hb. discriminate. }
  exists (firstn (List.length (events (multi_port_forward_init m)) - 2)
                 (events (multi_port_forward_init m))), ctx, w, now.
  split.
  - rewrite <- Hs. symmetry. apply firstn_skipn.
  - rewrite do_pulse_count, Ha, Ht. cbn [andb]. destruct (CInt.add _ _ >? _); reflexivity.
Qed.

(** X14.  A due call in which the engine announces no change, or a change
    to a state other than failed and succeeded (processing, partial
    result, short-lifetime error), pulses and reschedules but reports
    nothing: no line is logged and the mapping info is not fetched. *)
Theorem do_other_states_are_silent m :
  PF_initted (pf m) = true ->
  (PF_wait_timestamp (pf m) >? fst (due_clock m)) = false ->
  fst (fst (due_eval m)) = 0 \/
  (snd (fst (due_eval m)) <> pcp_state_failed /\
   snd (fst (due_eval m)) <> pcp_state_succeeded) ->
  events (multi_port_forward_do m) =
  [EvTimer (fst (due_clock m));
   EvPulse (PF_pcp_ctx (pf m)) (fst (due_pulse m));
   EvTimer (fst (due_clock2 m));
   EvEvalFlowState (PF_pcp_flow (pf m)) (fst (fst (due_eval m)))
                   (snd (fst (due_eval m)))].
Proof.
  intros Hi Hd Hs. destruct (do_due_run m Hi Hd) as (E & _). rewrite E.
  unfold transition_report.
  destruct Hs as [Hz | [Hf Hg]].
  - rewrite Hz. reflexivity.
  - destruct (fst (fst (due_eval m)) =? 0); [reflexivity|].
    destruct (snd (fst (due_eval m))); try reflexivity; congruence.
Qed.

End TickFacts.

(* ------------------------------------------------------------------ *)
(** ** Beyond the claims: whole histories *)

Section HistoryFacts.

Context {W : Type} {C : Ext.Collaborators W}.

Implicit Types (m : Machine W).

Lemma init_more m :
  idle_is_clean (pf m) -> flow_invariant (pf m) ->
  step_more m (multi_port_forward_init m).
Proof.
  intros Hi Hf. destruct (PF_initted (pf m)) eqn:Hinit.
  - rewrite (init_noop m Hinit). constructor; cbn; auto.
  - specialize (Hi Hinit). destruct m as [cf s w a]. cbn in Hi. subst s.
    clear Hf Hinit.
    unfold multi_port_forward_init, PF_log_init, PF_get_addr. run_code. cbn.
    unfold init_failed_line, flow_failed_line, shutdown_line, init_ok_line.
    split_branches;
      (constructor; cbn; unfold flow_invariant; cbn; intros;
       first [ reflexivity | congruence
             | rewrite scan_true_filled by assumption; reflexivity ]).
Qed.

Lemma close_more m :
  flow_invariant (pf m) -> step_more m (multi_port_forward_close m).
Proof.
  intros Hf. rewrite close_run.
  unfold init_failed_line, flow_failed_line, shutdown_line, init_ok_line.
  destruct (PF_initted (pf m)) eqn:Hinit.
  - specialize (Hf Hinit).
    destruct (PF_pcp_flow (pf m)) as [f|] eqn:Ef; [|congruence].
    constructor; cbn; try reflexivity. unfold flow_invariant. cbn. congruence.
  - constructor; cbn; auto.
Qed.

Lemma do_more m :
  flow_invariant (pf m) -> step_more m (multi_port_forward_do m).
Proof.
  intros Hf. destruct (due_or_not m) as [H | [Hinit Hd]].
  - destruct (do_idle_run m H) as (E & Epf & Ecf).
    constructor; rewrite ?E, ?Epf; auto;
      destruct (PF_initted (pf m)); reflexivity.
  - destruct (do_due_run m Hinit Hd) as (E & Epf & Ecf).
    specialize (Hf Hinit).
    destruct (PF_pcp_flow (pf m)) as [f|] eqn:Ef; [|congruence].
    constructor; rewrite ?E, ?Epf.
    + unfold flow_invariant. cbn. congruence.
    + rewrite forallb_app, transition_report_forallb by reflexivity. reflexivity.
    + rewrite forallb_app, transition_report_forallb; try reflexivity.
      now rewrite Ef.
    + rewrite forallb_app, transition_report_forallb by reflexivity. reflexivity.
    + rewrite ObsFacts.count_line_app, ObsFacts.count_app.
      rewrite transition_report_line, transition_report_quiet by reflexivity.
      reflexivity.
    + rewrite ObsFacts.count_line_app, ObsFacts.count_app.
      rewrite transition_report_line, transition_report_quiet by reflexivity.
      reflexivity.
    + rewrite ObsFacts.count_line_app, ObsFacts.count_app.
      rewrite transition_report_line, transition_report_quiet by reflexivity.
      reflexivity.
    + rewrite ObsFacts.count_line_app, ObsFacts.count_app.
      rewrite transition_report_line, transition_report_quiet by reflexivity.
      reflexivity.
    + rewrite !ObsFacts.count_app, !transition_report_quiet by reflexivity.
      reflexivity.
Qed.

Lemma op_more op m :
  idle_is_clean (pf m) -> flow_invariant (pf m) -> step_more m (run_op op m).
Proof.
  intros Hi Hf. destruct op; cbn [run_op];
    [now apply init_more | now apply do_more | now apply close_more].
Qed.

Lemma history_more ops m :
  ctx_invariant (pf m) -> idle_is_clean (pf m) -> flow_invariant (pf m) ->
  step_more m (run_ops ops m).
Proof.
  revert m. induction ops as [|op ops IH]; intros m Hc Hi Hf.
  - constructor; cbn; auto.
  - destruct (alive m) eqn:A;
      [|rewrite (run_ops_dead _ _ A); constructor; cbn; auto].
    destruct (op_step op m Hc Hi) as [A1 A2 _ _ _ _].
    destruct (op_more op m Hi Hf) as [B1 B2 B3 B4 B5 B6 B7 B8 B9].
    destruct (IH _ A1 A2 B1) as [D1 D2 D3 D4 D5 D6 D7 D8 D9].
    constructor;
      rewrite ?(run_ops_cons_after _ _ _ A), ?(run_ops_cons_events _ _ _ A); auto.
    + rewrite forallb_app, B2, D2. reflexivity.
    + rewrite forallb_app, B3, D3. reflexivity.
    + rewrite forallb_app, B4, D4. reflexivity.
    + rewrite ObsFacts.count_line_app, ObsFacts.count_app. lia.
    + rewrite ObsFacts.count_line_app, ObsFacts.count_app. lia.
    + rewrite ObsFacts.count_line_app, ObsFacts.count_app. lia.
    + rewrite ObsFacts.count_line_app, ObsFacts.count_app. lia.
    + rewrite !ObsFacts.count_app. lia.
Qed.

Lemma boot_flow_invariant cf (w : W) : flow_invariant (pf (boot cf w)).
Proof. intro H. discriminate. Qed.

(** X15.  Over any history of the public operations from program start,
    every flow is requested on a non-null context, for UDP and for 7200
    seconds; every server is added on a non-null context, from an address
    that a successful lookup wrote (never the untouched local) and at
    version 2; every termination passes the flag 1; and every lookup asks
    for datagram sockets of any family with [AI_V4MAPPED], passively
    exactly when it names no host. *)
Theorem engine_calls_well_formed (history : list Op) (cf : Config) (w : W) :
  let evs := events (run_ops history (boot cf w)) in
  forallb Obs.call_args_ok evs = true /\
  forallb Obs.lookup_args_ok evs = true.
Proof.
  cbn zeta. destruct (boot_invariants cf w) as [Hc Hi].
  destruct (history_more history _ Hc Hi (boot_flow_invariant cf w)).
  split; assumption.
Qed.

(** X16.  Over any history from program start an initialised module
    holds a non-null flow, and no [pcp_eval_flow_state] or
    [pcp_flow_get_info] call was given a null flow. *)
Theorem initted_implies_flow (history : list Op) (cf : Config) (w : W) :
  let h := run_ops history (boot cf w) in
  flow_invariant (pf (after h)) /\
  forallb Obs.flow_arg_ok (events h) = true.
Proof.
  cbn zeta. destruct (boot_invariants cf w) as [Hc Hi].
  destruct (history_more history _ Hc Hi (boot_flow_invariant cf w)).
  split; assumption.
Qed.

(** X17.  The log accounts for the engine's refusals.  Over any history
    from program start there is one "Initialization failed!" line per null
    answer of [pcp_init], one "Failed to init mapping!" line and one
    "Shutdown" line per null answer of [pcp_new_flow], one "Initialized
    successfully" line per flow obtained, and the log level was set once
    per [pcp_init] call. *)
Theorem log_accounts_for_engine_answers (history : list Op) (cf : Config) (w : W) :
  let evs := events (run_ops history (boot cf w)) in
  Obs.count_line init_failed_line evs = Obs.count Obs.is_init_failed evs /\
  Obs.count_line flow_failed_line evs = Obs.count Obs.is_flow_refused evs /\
  Obs.count_line shutdown_line evs = Obs.count Obs.is_flow_refused evs /\
  Obs.count_line init_ok_line evs = Obs.count Obs.is_flow_made evs /\
  Obs.count Obs.is_log_level evs = Obs.count Obs.is_pcp_init evs.
Proof.
  cbn zeta. destruct (boot_invariants cf w) as [Hc Hi].
  destruct (history_more history _ Hc Hi (boot_flow_invariant cf w)).
  repeat split; assumption.
Qed.

(** X18.  A call of [multi_port_forward_close] after any history from
    program start leaves nothing behind: all four statics are back at
    their initial values and every engine context that was constructed
    has been terminated, once. *)
Theorem close_after_any_history_releases_all (history : list Op) (cf : Config) (w : W) :
  let h := run_ops history (boot cf w) in
  let o := multi_port_forward_close (after h) in
  pf (after o) = PF_statics_init /\
  Obs.count Obs.is_terminate (events h ++ events o) =
  Obs.count Obs.is_constructed (events h ++ events o).
Proof.
  cbn zeta. destruct (boot_invariants cf w) as [Hc Hi].
  destruct (history_step history _ Hc Hi) as [A1 A2 _ _ A5 _].
  rewrite close_run, !ObsFacts.count_app. cbn in A5.
  destruct (PF_initted (pf (after (run_ops history (boot cf w))))) eqn:E.
  - cbn. split; [reflexivity|]. cbn in A5. lia.
  - cbn. split; [now apply A2|]. cbn in A5. lia.
Qed.

End HistoryFacts.

(* ------------------------------------------------------------------ *)
(** ** Beyond the claims: concrete runs *)

(** Witness for X2: a foreign family first, then IPv4, then IPv6. *)
Lemma PF_get_addr_takes_first_match_witness :
  value (PF_get_addr (C := Sample.scripted Sample.mixed_results)
           None 7808 Indeterminate (Sample.start None)) =
  (true, Filled (repeat Byte.x02 16)).
Proof.
  exact (PF_get_addr_takes_first_match
           (C := Sample.scripted Sample.mixed_results)
           None 7808 Indeterminate (Sample.start None)
           [Sample.node (AF_other 1) Byte.x01] (Sample.node AF_INET Byte.x02)
           [Sample.node AF_INET6 Byte.x03]
           eq_refl eq_refl eq_refl eq_refl).
Defined.

(** Witness for X3: the lookup fails, the buffer keeps its byte. *)
Lemma PF_get_addr_failure_keeps_buffer_witness :
  fst (value (PF_get_addr (C := Sample.scripted Sample.no_resolver)
                None 7808 (Filled [Byte.x07]) (Sample.start None))) = false /\
  snd (value (PF_get_addr (C := Sample.scripted Sample.no_resolver)
                None 7808 (Filled [Byte.x07]) (Sample.start None))) =
  Filled [Byte.x07].
Proof.
  assert (H : fst (value (PF_get_addr (C := Sample.scripted Sample.no_resolver)
                            None 7808 (Filled [Byte.x07]) (Sample.start None)))
              = false) by (vm_compute; reflexivity).
  split; [exact H|].
  destruct (PF_get_addr_failure_keeps_buffer
              (C := Sample.scripted Sample.no_resolver)
              None 7808 (Filled [Byte.x07]) (Sample.start None))
    as (_ & _ & _ & P).
  exact (P H).
Defined.

(** Witness for X5. *)
Lemma PF_get_addr_copy_bounded_witness :
  fst (value (PF_get_addr (C := Sample.scripted Sample.mixed_results)
                None 7808 Indeterminate (Sample.start None))) = true /\
  exists bs,
    snd (value (PF_get_addr (C := Sample.scripted Sample.mixed_results)
                  None 7808 Indeterminate (Sample.start None))) = Filled bs /\
    (List.length bs <= 28)%nat.
Proof.
  assert (H : fst (value (PF_get_addr (C := Sample.scripted Sample.mixed_results)
                            None 7808 Indeterminate (Sample.start None))) = true)
    by (vm_compute; reflexivity).
  split; [exact H|].
  exact (PF_get_addr_copy_bounded
           (C := Sample.scripted Sample.mixed_results) _ _ _ _ H).
Defined.

(** Witness for X6: no engine. *)
Lemma init_construction_failure_stops_witness :
  PF_initted (pf (Sample.start None)) = false /\
  Obs.count Obs.is_constructed
    (events (multi_port_forward_init (C := Sample.scripted Sample.no_engine)
               (Sample.start None))) = 0%nat /\
  Obs.count Obs.is_new_flow
    (events (multi_port_forward_init (C := Sample.scripted Sample.no_engine)
               (Sample.start None))) = 0%nat.
Proof.
  assert (H1 : PF_initted (pf (Sample.start None)) = false) by reflexivity.
  assert (H2 : Obs.count Obs.is_constructed
                 (events (multi_port_forward_init
                            (C := Sample.scripted Sample.no_engine)
                            (Sample.start None))) = 0%nat)
    by (vm_compute; reflexivity).
  split; [exact H1|]. split; [exact H2|].
  destruct (init_construction_failure_stops
              (C := Sample.scripted Sample.no_engine) _ H1 H2)
    as (_ & _ & _ & _ & _ & P & _).
  exact P.
Defined.

(** Witness for X7: the local lookup finds a foreign family only, the
    engine refuses the flow. *)
Lemma init_flow_failure_unwinds_witness :
  PF_initted (pf (Sample.start None)) = false /\
  Obs.count Obs.is_flow_refused
    (events (multi_port_forward_init (C := Sample.scripted Sample.foreign_results)
               (Sample.start None))) = 1%nat /\
  pf (after (multi_port_forward_init (C := Sample.scripted Sample.foreign_results)
               (Sample.start None))) = PF_statics_init.
Proof.
  assert (H1 : PF_initted (pf (Sample.start None)) = false) by reflexivity.
  assert (H2 : Obs.count Obs.is_flow_refused
                 (events (multi_port_forward_init
                            (C := Sample.scripted Sample.foreign_results)
                            (Sample.start None))) = 1%nat)
    by (vm_compute; reflexivity).
  split; [exact H1|]. split; [exact H2|].
  exact (proj1 (init_flow_failure_unwinds
                  (C := Sample.scripted Sample.foreign_results) _ H1 H2)).
Defined.

(** Witness for X8: the gateway name resolves to an IPv4 address. *)
Lemma init_manual_gateway_witness :
  PF_initted (pf (Sample.start (Some "gw"))) = false /\
  Cmdline_gateway_ip (cfg (Sample.start (Some "gw"))) = Some "gw" /\
  fst (value (PF_get_addr (C := Sample.scripted Sample.manual_gateway)
                (Some "gw") PCP_SERVER_PORT Indeterminate
                (Sample.start (Some "gw")))) = true /\
  Obs.count Obs.is_autodiscover_init
    (events (multi_port_forward_init (C := Sample.scripted Sample.manual_gateway)
               (Sample.start (Some "gw")))) = 0%nat.
Proof.
  assert (H1 : PF_initted (pf (Sample.start (Some "gw"))) = false) by reflexivity.
  assert (H2 : Cmdline_gateway_ip (cfg (Sample.start (Some "gw"))) = Some "gw")
    by reflexivity.
  assert (H3 : fst (value (PF_get_addr (C := Sample.scripted Sample.manual_gateway)
                             (Some "gw") PCP_SERVER_PORT Indeterminate
                             (Sample.start (Some "gw")))) = true)
    by (vm_compute; reflexivity).
  split; [exact H1|]. split; [exact H2|]. split; [exact H3|].
  destruct (init_manual_gateway (C := Sample.scripted Sample.manual_gateway)
              _ _ H1 H2 H3) as (_ & P & _).
  exact P.
Defined.

(** Witness for X9. *)
Lemma init_sets_up_logging_first_witness :
  PF_initted (pf (Sample.start None)) = false /\
  Obs.count Obs.is_log_level
    (Obs.before Obs.is_pcp_init
       (events (multi_port_forward_init (C := Sample.scripted Sample.good_flow)
                  (Sample.start None)))) = 1%nat.
Proof.
  assert (H1 : PF_initted (pf (Sample.start None)) = false) by reflexivity.
  split; [exact H1|].
  destruct (init_sets_up_logging_first (C := Sample.scripted Sample.good_flow)
              _ H1) as (_ & _ & P & _).
  exact P.
Defined.

(** Witness for X11: the tick right after a due tick is turned away (the
    clock shows 1020, the next pulse is due at 1260). *)
Lemma do_next_pulse_waits_for_hint_witness :
  PF_initted (pf (Sample.running 0)) = true /\
  (PF_wait_timestamp (pf (Sample.running 0)) >?
   fst (due_clock (C := Sample.scripted Sample.good_flow) (Sample.running 0))) = false /\
  Obs.count Obs.is_pulse
    (events (multi_port_forward_do (C := Sample.scripted Sample.good_flow)
               (after (multi_port_forward_do (C := Sample.scripted Sample.good_flow)
                         (Sample.running 0))))) = 0%nat.
Proof.
  assert (H1 : PF_initted (pf (Sample.running 0)) = true) by reflexivity.
  assert (H2 : (PF_wait_timestamp (pf (Sample.running 0)) >?
                fst (due_clock (C := Sample.scripted Sample.good_flow)
                       (Sample.running 0))) = false) by reflexivity.
  split; [exact H1|]. split; [exact H2|].
  exact (eq_trans
           (do_next_pulse_waits_for_hint (C := Sample.scripted Sample.good_flow)
              (Sample.running 0) H1 H2)
           eq_refl).
Defined.

(** Witness for X12: the pulse returns the hint 0. *)
Lemma do_nonpositive_hint_pulses_again_witness :
  Obs.count Obs.is_pulse
    (events (multi_port_forward_do (C := Sample.scripted Sample.zero_hint)
               (after (multi_port_forward_do (C := Sample.scripted Sample.zero_hint)
                         (Sample.running 0))))) = 1%nat.
Proof.
  apply (do_nonpositive_hint_pulses_again (C := Sample.scripted Sample.zero_hint)
           (Sample.running 0)).
  - reflexivity.
  - reflexivity.
  - vm_compute. discriminate.
  - reflexivity.
  - vm_compute. discriminate.
Defined.

(** Witness for X13: the first tick after a successful start is turned
    away (the clock shows 1010, the first pulse asked for 1250). *)
Lemma init_first_tick_waits_for_hint_witness :
  PF_initted (pf (Sample.start None)) = false /\
  PF_initted
    (pf (after (multi_port_forward_init (C := Sample.scripted Sample.good_flow)
                  (Sample.start None)))) = true /\
  exists pre ctx wait_ms now,
    events (multi_port_forward_init (C := Sample.scripted Sample.good_flow)
              (Sample.start None)) = pre ++ [EvPulse ctx wait_ms; EvTimer now].
Proof.
  assert (H1 : PF_initted (pf (Sample.start None)) = false) by reflexivity.
  assert (H2 : PF_initted
                 (pf (after (multi_port_forward_init
                               (C := Sample.scripted Sample.good_flow)
                               (Sample.start None)))) = true)
    by (vm_compute; reflexivity).
  split; [exact H1|]. split; [exact H2|].
  destruct (init_first_tick_waits_for_hint
              (C := Sample.scripted Sample.good_flow) _ H1 H2)
    as (pre & ctx & w & now & P & _).
  exists pre, ctx, w, now. exact P.
Defined.

(** Witness for X14: the engine announces a short-lifetime error. *)
Lemma do_other_states_are_silent_witness :
  events (multi_port_forward_do (C := Sample.scripted Sample.mixed_results)
            (Sample.running 0)) =
  [EvTimer 1000; EvPulse (Some 1%N) 250; EvTimer 1010;
   EvEvalFlowState (Some 2%N) 1 pcp_state_short_lifetime_error].
Proof.
  apply (do_other_states_are_silent (C := Sample.scripted Sample.mixed_results)
           (Sample.running 0)).
  - reflexivity.
  - reflexivity.
  - right. split; vm_compute; discriminate.
Defined.
